(** * opennox-lib: packet-capture decoder and UDP relay

    A shallow embedding of
      - [cmd/opennox-packet-decode/main.go] ([RecordIn.Decode]), and
      - the relay that lives next to it ([Proxy.getClient],
        [clientPort.serve], [clientPort.interceptServer], [modifyMessage],
        [xorData]),
    together with the properties the specification states about them.

    Bytes are integers in [0, 256); a Go [int] is an integer; a Go slice is
    a list, and every slice expression carries the bounds check the Go
    runtime performs.  The [netmsg], [noxnet] and [discover] packages are
    outside the modelled sources: their operations are taken as parameters
    (a record for the opcode registry, a type class for the [Message]
    interface). *)

From stdpp Require Import gmap strings list.
From Stdlib Require Import ZArith Lia Ascii.

#[local] Open Scope string_scope.
#[local] Open Scope list_scope.
#[local] Open Scope Z_scope.

(* ===================================================================== *)
(** ** The Go runtime pieces the code relies on *)
(* ===================================================================== *)

Module Go.

(** Go's [error] values; only their presence matters to the code. *)
Definition error := string.

(** A function result [(v, err)]. *)
Inductive result (A : Type) : Type :=
| Ok (a : A)
| Err (e : error).
Arguments Ok {A} a.
Arguments Err {A} e.

(** What running a piece of code comes to: it returns, it stops with a
    run-time panic, or the bound on loop iterations of the model was
    too small. *)
Inductive outcome (A : Type) : Type :=
| Done (a : A)
| Panic
| OutOfFuel.
Arguments Done {A} a.
Arguments Panic {A}.
Arguments OutOfFuel {A}.

Definition bind {A B} (x : outcome A) (k : A -> outcome B) : outcome B :=
  match x with
  | Done a => k a
  | Panic => Panic
  | OutOfFuel => OutOfFuel
  end.

Definition len {A} (l : list A) : Z := Z.of_nat (List.length l).

(** [s[:hi]]: panics unless [0 <= hi <= len s].  (Go allows [hi] up to the
    capacity; every [s[:hi]] of the code is followed by [s[hi:]] on the
    same slice, which panics beyond the length.) *)
Definition slice_to {A} (s : list A) (hi : Z) : outcome (list A) :=
  if (hi <? 0) || (len s <? hi) then Panic else Done (take (Z.to_nat hi) s).

(** [s[lo:]]: panics unless [0 <= lo <= len s]. *)
Definition slice_from {A} (s : list A) (lo : Z) : outcome (list A) :=
  if (lo <? 0) || (len s <? lo) then Panic else Done (drop (Z.to_nat lo) s).

(** [make([]byte, n)]: panics on a negative length. *)
Definition make_bytes (n : Z) : outcome (list Z) :=
  if n <? 0 then Panic else Done (replicate (Z.to_nat n) 0).

(** [copy(dst, src)]: overwrites the first [min (len dst) (len src)]
    elements of [dst]. *)
Definition copy {A} (dst src : list A) : list A :=
  take (List.length dst) src ++ drop (List.length src) dst.

End Go.

Import Go.

(** [x ← e; k] runs [e], and [k] on what it returns. *)
#[global] Instance outcome_bind : MBind outcome := fun A B k x => Go.bind x k.

(* ===================================================================== *)
(** ** [encoding/hex] *)
(* ===================================================================== *)

Module Hex.

(** The value of a hexadecimal digit, upper or lower case. *)
Definition fromHexChar (c : ascii) : option Z :=
  let n := Z.of_N (N_of_ascii c) in
  if (48 <=? n) && (n <=? 57) then Some (n - 48)
  else if (97 <=? n) && (n <=? 102) then Some (n - 97 + 10)
  else if (65 <=? n) && (n <=? 70) then Some (n - 65 + 10)
  else None.

(** [hex.DecodeString]: two digits per byte; a character that is no digit
    or an odd number of characters is an error. *)
Fixpoint DecodeString (s : string) : result (list Z) :=
  match s with
  | EmptyString => Ok []
  | String p EmptyString =>
      match fromHexChar p with
      | None => Err "encoding/hex: invalid byte"
      | Some _ => Err "encoding/hex: odd length hex string"
      end
  | String p (String q s') =>
      match fromHexChar p, fromHexChar q with
      | Some a, Some b =>
          match DecodeString s' with
          | Ok l => Ok (Z.lor (Z.shiftl a 4) b :: l)
          | Err e => Err e
          end
      | _, _ => Err "encoding/hex: invalid byte"
      end
  end.

(** The digit table ["0123456789abcdef"]. *)
Definition hexdigit (n : Z) : ascii :=
  ascii_of_N (Z.to_N (if n <? 10 then 48 + n else 87 + n)).

(** [hex.EncodeToString]. *)
Fixpoint EncodeToString (l : list Z) : string :=
  match l with
  | [] => EmptyString
  | b :: l' =>
      String (hexdigit (Z.shiftr b 4))
        (String (hexdigit (Z.land b 15)) (EncodeToString l'))
  end.

End Hex.

(* ===================================================================== *)
(** ** The [netmsg] package, as far as the code uses it *)
(* ===================================================================== *)

Module Netmsg.

(** Modelled from the spec: [netmsg.State] is not among the sources; the
    decode state holds one flag, whether the stream is client-originated,
    which the caller sets before a decode call and the decoder reads. *)
Record State := { IsClient : bool }.

(** The opcode registry: [Op.Len], [Op.String], [State.DecodeNext] and the
    dynamic type test for [netmsg.Unknown].  An opcode is a byte.
    [DecodeNext] returns Go's triple [(m, n, err)]: the message (or [nil]),
    the number of bytes it took, and the error (or [nil]). *)
Record Registry := {
  AnyMessage : Type;
  Op_Len : Z -> Z;
  Op_String : Z -> string;
  DecodeNext : State -> list Z -> option AnyMessage * Z * option error;
  IsUnknownType : AnyMessage -> bool
}.

(** The [Message] interface, for the message types the relay decodes and
    re-encodes.  [Decode data] fills a fresh zero value and returns it with
    the number of bytes read; [Encode m dst] returns the contents of the
    destination slice after the call.  Both may report an error. *)
Class Message (T : Type) := {
  NetOp : T -> Z;
  EncodeSize : T -> Z;
  Encode : T -> list Z -> result (list Z);
  Decode : list Z -> result (T * Z)
}.

End Netmsg.

Import Netmsg.

(* ===================================================================== *)
(** ** [cmd/opennox-packet-decode]: the offline capture decoder *)
(* ===================================================================== *)

Module Decoder.

Record RecordIn := {
  r_SrcID : Z;
  r_DstID : Z;
  r_Src : string;
  r_Dst : string;
  r_Data : string
}.

Section WithRegistry.

Variable R : Registry.

(** [Msg]; [Fields] is [nil] or the decoded message. *)
Record Msg := {
  m_Op : string;
  Fields : option (AnyMessage R);
  m_Len : Z;
  m_Data : string
}.

(** [RecordOut]; a pointer field is an option, [nil] being [None].  With
    [omitempty], a [nil] pointer, an empty list and an empty string are
    left out of the JSON output. *)
Record RecordOut := {
  SrcID : Z;
  DstID : Z;
  Src : string;
  Dst : string;
  Hdr : string;
  SID : Z;
  Syn : option Z;
  Ack : option Z;
  Len : Z;
  Op : option string;
  Ops : list string;
  Msgs : list Msg;
  Data : string
}.

(** Assignments to the fields of a [RecordOut]. *)
Definition set_Len (o : RecordOut) (v : Z) : RecordOut :=
  {| SrcID := SrcID o; DstID := DstID o; Src := Src o; Dst := Dst o;
     Hdr := Hdr o; SID := SID o; Syn := Syn o; Ack := Ack o; Len := v;
     Op := Op o; Ops := Ops o; Msgs := Msgs o; Data := Data o |}.

Definition set_Hdr (o : RecordOut) (v : string) : RecordOut :=
  {| SrcID := SrcID o; DstID := DstID o; Src := Src o; Dst := Dst o;
     Hdr := v; SID := SID o; Syn := Syn o; Ack := Ack o; Len := Len o;
     Op := Op o; Ops := Ops o; Msgs := Msgs o; Data := Data o |}.

Definition set_SID (o : RecordOut) (v : Z) : RecordOut :=
  {| SrcID := SrcID o; DstID := DstID o; Src := Src o; Dst := Dst o;
     Hdr := Hdr o; SID := v; Syn := Syn o; Ack := Ack o; Len := Len o;
     Op := Op o; Ops := Ops o; Msgs := Msgs o; Data := Data o |}.

Definition set_Syn (o : RecordOut) (v : option Z) : RecordOut :=
  {| SrcID := SrcID o; DstID := DstID o; Src := Src o; Dst := Dst o;
     Hdr := Hdr o; SID := SID o; Syn := v; Ack := Ack o; Len := Len o;
     Op := Op o; Ops := Ops o; Msgs := Msgs o; Data := Data o |}.

Definition set_Ack (o : RecordOut) (v : option Z) : RecordOut :=
  {| SrcID := SrcID o; DstID := DstID o; Src := Src o; Dst := Dst o;
     Hdr := Hdr o; SID := SID o; Syn := Syn o; Ack := v; Len := Len o;
     Op := Op o; Ops := Ops o; Msgs := Msgs o; Data := Data o |}.

Definition set_Op (o : RecordOut) (v : option string) : RecordOut :=
  {| SrcID := SrcID o; DstID := DstID o; Src := Src o; Dst := Dst o;
     Hdr := Hdr o; SID := SID o; Syn := Syn o; Ack := Ack o;
     Len := Len o; Op := v; Ops := Ops o; Msgs := Msgs o;
     Data := Data o |}.

Definition set_Ops (o : RecordOut) (v : list string) : RecordOut :=
  {| SrcID := SrcID o; DstID := DstID o; Src := Src o; Dst := Dst o;
     Hdr := Hdr o; SID := SID o; Syn := Syn o; Ack := Ack o;
     Len := Len o; Op := Op o; Ops := v; Msgs := Msgs o;
     Data := Data o |}.

Definition set_Msgs (o : RecordOut) (v : list Msg) : RecordOut :=
  {| SrcID := SrcID o; DstID := DstID o; Src := Src o; Dst := Dst o;
     Hdr := Hdr o; SID := SID o; Syn := Syn o; Ack := Ack o;
     Len := Len o; Op := Op o; Ops := Ops o; Msgs := v; Data := Data o |}.

Definition set_Data (o : RecordOut) (v : string) : RecordOut :=
  {| SrcID := SrcID o; DstID := DstID o; Src := Src o; Dst := Dst o;
     Hdr := Hdr o; SID := SID o; Syn := Syn o; Ack := Ack o;
     Len := Len o; Op := Op o; Ops := Ops o; Msgs := Msgs o; Data := v |}.

(** [isUnknown]; a [nil] interface is of no type. *)
Definition isUnknown (m : option (AnyMessage R)) : bool :=
  match m with
  | Some m => IsUnknownType R m
  | None => false
  end.

(** The body of the loop [for len(data) != 0] up to the slicing, on a
    non-empty [data] whose first byte is [op]: the size [sz] of the next
    message, the decoded fields [v] and the flag [lenOK]. *)
Definition next_size (dec : State) (data : list Z) (op : Z)
  : Z * option (AnyMessage R) * bool :=
  let sz := len data in
  let v := None in
  let lenOK := false in
  let '(sz, lenOK) :=
    let n := Op_Len R op in
    if (0 <=? n) && (n <=? len data) then (n + 1, true) else (sz, lenOK) in
  let '(m, n, err) := DecodeNext R dec data in
  match err with
  | None =>
      if (0 <? n) && negb (isUnknown m) then (n, m, true)
      else (sz, v, lenOK)
  | Some _ => (sz, v, lenOK)
  end.

(** The loop [for len(data) != 0 { ... }], with the output record and
    [allSplit] as its state.  Each iteration takes at least one byte, so
    [fuel] bounds the iterations when it is the length of [data]. *)
Fixpoint split_loop (fuel : nat) (dec : State) (data : list Z)
    (o : RecordOut) (allSplit : bool) : outcome (RecordOut * bool) :=
  match data with
  | [] => Done (o, allSplit)
  | op :: _ =>
      match fuel with
      | O => OutOfFuel
      | S fuel =>
          let '(sz, v, lenOK) := next_size dec data op in
          let allSplit := if lenOK then allSplit else false in
          msg ← slice_to data sz;
          data ← slice_from data sz;
          let m := {| m_Op := Op_String R op;
                      m_Len := len msg;
                      m_Data := Hex.EncodeToString msg;
                      Fields := v |} in
          let o := set_Ops o (Ops o ++ [m_Op m]) in
          let o := set_Msgs o (Msgs o ++ [m]) in
          split_loop fuel dec data o allSplit
      end
  end.

(** The test [len(data) == 1] and the decode attempt under it: the name
    of the bare opcode when the decode fails. *)
Definition bare_op (dec : State) (data : list Z) : option string :=
  match data with
  | [op] =>
      match DecodeNext R dec data with
      | (_, _, Some _) => Some (Op_String R op)
      | (_, _, None) => None
      end
  | _ => None
  end.

(** [RecordIn.Decode].  The result is the output record and the decode
    state the call leaves behind. *)
Definition Decode (r : RecordIn) (dec : State) : outcome (RecordOut * State) :=
  let o := {| SrcID := r_SrcID r; DstID := r_DstID r;
              Src := r_Src r; Dst := r_Dst r; Data := r_Data r;
              Hdr := ""; SID := 0; Syn := None; Ack := None; Len := 0;
              Op := None; Ops := []; Msgs := [] |} in
  match Hex.DecodeString (r_Data r) with
  | Err _ => Done (o, dec)
  | Ok raw =>
      let o := set_Len o (len raw) in
      match raw with
      | h0 :: h1 :: data =>
          let o := set_Hdr o (Hex.EncodeToString [h0; h1]) in
          let reliable := negb (Z.land h0 128 =? 0) in
          let o := set_SID o (Z.ldiff h0 128) in
          let seq := h1 in
          let o := if reliable then set_Syn o (Some seq)
                   else set_Ack o (Some seq) in
          let dec := {| IsClient := negb (SrcID o =? 0) |} in
          match bare_op dec data with
          | Some s => Done (set_Op o (Some s), dec)
          | None =>
              '(o, allSplit) ← split_loop (List.length data) dec data o true;
              if allSplit : bool
              then Done (set_Data o "", dec)
              else Done (set_Ops o (Ops o ++ ["???"]), dec)
          end
      | _ => Done (o, dec)
      end
  end.

(** The decode state [Decode] sets for a record: the stream is the
    client's when the record has a source id. *)
Definition stream_state (r : RecordIn) : State :=
  {| IsClient := negb (r_SrcID r =? 0) |}.

(** Two output records that differ in [Ops] and [Msgs] at most. *)
Definition same_but_messages (o o' : RecordOut) : Prop :=
  SrcID o' = SrcID o /\ DstID o' = DstID o /\ Src o' = Src o /\
  Dst o' = Dst o /\ Hdr o' = Hdr o /\ SID o' = SID o /\ Syn o' = Syn o /\
  Ack o' = Ack o /\ Len o' = Len o /\ Op o' = Op o /\ Data o' = Data o.

(** "Every byte of the payload was attributed to a cleanly split
    message", in the words of the specification: the payload divides
    into messages from its first byte to its last, the size of each
    being known ([lenOK]) and within the bytes that are left. *)
Inductive cleanly_split (dec : State) : list Z -> Prop :=
| cleanly_split_nil : cleanly_split dec []
| cleanly_split_cons op data sz v :
    next_size dec (op :: data) op = (sz, v, true) ->
    0 <= sz <= len (op :: data) ->
    cleanly_split dec (drop (Z.to_nat sz) (op :: data)) ->
    cleanly_split dec (op :: data).

(** What one [dec.Decode(&r)] of the JSON stream gives before the end of
    the file: a record, with the result of writing its output
    ([enc.Encode]), or an error. *)
Inductive json_read :=
| JRecord (r : RecordIn) (werr : option error)
| JError (e : error).

(** The loop of [run] over the reads up to the end of the file, with the
    one decode state [mdec] shared by all records: the records written to
    the output, in order, and how the loop ends (the error [run] returns, or
    a panic). *)
Fixpoint run_loop (input : list json_read) (mdec : State)
  : list RecordOut * outcome (option error) :=
  match input with
  | [] => ([], Done None)
  | JError e :: _ => ([], Done (Some e))
  | JRecord r werr :: input =>
      match Decode r mdec with
      | Done (r2, mdec) =>
          match werr with
          | Some e => ([], Done (Some e))
          | None =>
              let '(out, res) := run_loop input mdec in
              (r2 :: out, res)
          end
      | Panic => ([], Panic)
      | OutOfFuel => ([], OutOfFuel)
      end
  end.

End WithRegistry.

Arguments m_Op {R} _.
Arguments Fields {R} _.
Arguments m_Len {R} _.
Arguments m_Data {R} _.
Arguments SrcID {R} _.
Arguments DstID {R} _.
Arguments Src {R} _.
Arguments Dst {R} _.
Arguments Hdr {R} _.
Arguments SID {R} _.
Arguments Syn {R} _.
Arguments Ack {R} _.
Arguments Len {R} _.
Arguments Op {R} _.
Arguments Ops {R} _.
Arguments Msgs {R} _.
Arguments Data {R} _.

End Decoder.

(* ===================================================================== *)
(** ** The relay: client ports, the server-side worker, the interceptor *)
(* ===================================================================== *)

Module Relay.

(** [netip.AddrPort]: an address and a port. *)
Definition AddrPort : Type := Z * Z.

(** A [*net.UDPConn], named by the local port the system gave it. *)
Definition UDPConn : Type := Z.

Record clientPort := {
  id : Z;
  realCli : AddrPort;
  xor : Z;
  lis : option UDPConn
}.

Record Proxy := {
  realSrv : AddrPort;
  clientID : Z;
  clients : gmap AddrPort clientPort
}.

Definition set_xor (c : clientPort) (v : Z) : clientPort :=
  {| id := id c; realCli := realCli c; xor := v; lis := lis c |}.

Definition set_lis (c : clientPort) (v : option UDPConn) : clientPort :=
  {| id := id c; realCli := realCli c; xor := xor c; lis := v |}.

Definition set_clientID (p : Proxy) (v : Z) : Proxy :=
  {| realSrv := realSrv p; clientID := v; clients := clients p |}.

Definition set_clients (p : Proxy) (v : gmap AddrPort clientPort) : Proxy :=
  {| realSrv := realSrv p; clientID := clientID p; clients := v |}.

(** [xorData]: [p[i] ^= key] for every index; the result is the slice's
    contents after the call. *)
Definition xorData (key : Z) (p : list Z) : list Z :=
  (fun b => Z.lxor b key) <$> p.

(** *** The client port registry *)

(** [Proxy.newClient]; [atomic.AddUint32] wraps around at [2^32]. *)
Definition newClient (p : Proxy) (addr : AddrPort) : Proxy * clientPort :=
  let id := (clientID p + 1) mod 2 ^ 32 in
  (set_clientID p id,
   {| id := id; realCli := addr; xor := 0; lis := None |}).

(** [clientPort.listen]; [sock] is what [net.ListenUDP] answers. *)
Definition listen (c : clientPort) (sock : result UDPConn)
  : clientPort * option error :=
  match sock with
  | Err e => (c, Some e)
  | Ok l => (set_lis c (Some l), None)
  end.

(** [Proxy.getClient], run without interference from other goroutines:
    the lookup under the read lock and the one under the write lock then
    see the same map.  The registry holds pointers, so what [listen]
    writes to the new port shows in its registry entry.  The third
    component tells whether a worker [go c.serve()] was started. *)
Definition getClient (p : Proxy) (addr : AddrPort) (sock : result UDPConn)
  : Proxy * result clientPort * bool :=
  match clients p !! addr with
  | Some c => (p, Ok c, false)
  | None =>
      match clients p !! addr with
      | Some c => (p, Ok c, false)
      | None =>
          let '(p, c) := newClient p addr in
          let p := set_clients p (<[addr := c]> (clients p)) in
          match listen c sock with
          | (_, Some err) =>
              let p := set_clients p (delete addr (clients p)) in
              (p, Err err, false)
          | (c, None) =>
              let p := set_clients p (<[addr := c]> (clients p)) in
              (p, Ok c, true)
          end
      end
  end.

(** *** The handshake interceptor *)

(** [discover.MsgServerInfo] and [noxnet.MsgServerAccept]: the field the
    interceptor touches, and the others. *)
Record MsgServerInfo (Rest : Type) := {
  ServerName : string;
  info_rest : Rest
}.
Arguments ServerName {Rest} _.
Arguments info_rest {Rest} _.

Record MsgServerAccept (Rest : Type) := {
  XorKey : Z;
  accept_rest : Rest
}.
Arguments XorKey {Rest} _.
Arguments accept_rest {Rest} _.

Definition set_ServerName {Rest} (p : MsgServerInfo Rest) (v : string) :=
  {| ServerName := v; info_rest := info_rest p |}.

Definition set_XorKey {Rest} (p : MsgServerAccept Rest) (v : Z) :=
  {| XorKey := v; accept_rest := accept_rest p |}.

(** [modifyMessage].  The closure [fnc] changes the message it is given
    and the state [S] it has captured. *)
Definition modifyMessage {T} `{!Message T} {S : Type}
    (data : list Z) (fnc : T -> S -> T * S) (s : S) : outcome (list Z * S) :=
  payload ← slice_from data 3;
  match Decode payload with
  | Err _ => Done (data, s)
  | Ok (msg, _) =>
      let '(msg, s) := fnc msg s in
      buf ← make_bytes (3 + EncodeSize msg);
      head ← slice_to data 3;
      let buf := copy buf head in
      dst ← slice_from buf 3;
      match Encode msg dst with
      | Err _ => Done (data, s)
      | Ok dst => Done (take 3 buf ++ dst, s)
      end
  end.

Section Interceptor.

(** The opcodes of the three handshake messages. *)
Variables MSG_SERVER_INFO MSG_SERVER_ACCEPT MSG_ACCEPTED : Z.

Context {InfoRest AcceptRest MsgAccept : Type}.
Context `{!Message (MsgServerInfo InfoRest)}.
Context `{!Message (MsgServerAccept AcceptRest)}.
Context `{!Message MsgAccept}.

(** [netmsg.Append]: the bytes so far with the message added, or an
    error. *)
Variable Append : forall T, Message T -> list Z -> T -> result (list Z).

(** [clientPort.interceptServer]: the datagram to forward and the port
    afterwards. *)
Definition interceptServer (c : clientPort) (data : list Z)
  : outcome (list Z * clientPort) :=
  match data with
  | d0 :: d1 :: d2 :: _ =>
      if (d0 =? 0) && (d1 =? 0) then
        if d2 =? MSG_SERVER_INFO then
          modifyMessage data
            (fun (p : MsgServerInfo InfoRest) (c : clientPort) =>
               (set_ServerName p ("Proxy: " +:+ ServerName p), c)) c
        else Done (data, c)
      else if (d0 =? 128) && (d1 =? 0) then
        if d2 =? MSG_SERVER_ACCEPT then
          modifyMessage data
            (fun (p : MsgServerAccept AcceptRest) (c : clientPort) =>
               let c := set_xor c (XorKey p) in
               (set_XorKey p 0, c)) c
        else if d2 =? MSG_ACCEPTED then
          left ← slice_from data 2;
          payload ← slice_from left 1;
          match Decode (T := MsgAccept) payload with
          | Err _ => Done (data, c)
          | Ok (accept, n) =>
              left ← slice_from left (1 + n);
              match left with
              | [] => Done (data, c)
              | op :: _ =>
                  if negb (op =? MSG_SERVER_ACCEPT) then Done (data, c)
                  else
                    payload ← slice_from left 1;
                    match Decode (T := MsgServerAccept AcceptRest) payload with
                    | Err _ => Done (data, c)
                    | Ok (saccept, _) =>
                        let c := set_xor c (XorKey saccept) in
                        let saccept := set_XorKey saccept 0 in
                        let out := [d0; d1] in
                        match Append _ _ out accept with
                        | Err _ => Done (data, c)
                        | Ok out =>
                            match Append _ _ out saccept with
                            | Err _ => Done (data, c)
                            | Ok out => Done (out, c)
                            end
                        end
                    end
              end
          end
        else Done (data, c)
      else Done (data, c)
  | _ => Done (data, c)
  end.

(** A decode or encode step of the interception of a datagram fails:
    one case per step of [interceptServer] and [modifyMessage] that can
    report an error, with the steps before it having succeeded.  The
    encoder of [modifyMessage] is given a zeroed buffer of the size the
    message asks for. *)
Inductive intercept_fails : list Z -> Prop :=
| info_decode_fails payload e :
    Decode (T := MsgServerInfo InfoRest) payload = Err e ->
    intercept_fails (0 :: 0 :: MSG_SERVER_INFO :: payload)
| info_encode_fails payload p n p' e :
    Decode payload = Ok (p, n) ->
    p' = set_ServerName p ("Proxy: " +:+ ServerName p) ->
    0 <= EncodeSize p' ->
    Encode p' (replicate (Z.to_nat (EncodeSize p')) 0) = Err e ->
    intercept_fails (0 :: 0 :: MSG_SERVER_INFO :: payload)
| accept_decode_fails payload e :
    Decode (T := MsgServerAccept AcceptRest) payload = Err e ->
    intercept_fails (128 :: 0 :: MSG_SERVER_ACCEPT :: payload)
| accept_encode_fails payload p n p' e :
    Decode payload = Ok (p, n) ->
    p' = set_XorKey p 0 ->
    0 <= EncodeSize p' ->
    Encode p' (replicate (Z.to_nat (EncodeSize p')) 0) = Err e ->
    intercept_fails (128 :: 0 :: MSG_SERVER_ACCEPT :: payload)
| accepted_decode_fails payload e :
    Decode (T := MsgAccept) payload = Err e ->
    intercept_fails (128 :: 0 :: MSG_ACCEPTED :: payload)
| accepted_second_decode_fails payload accept n rest e :
    Decode (T := MsgAccept) payload = Ok (accept, n) ->
    0 <= n <= len payload ->
    drop (Z.to_nat n) payload = MSG_SERVER_ACCEPT :: rest ->
    Decode (T := MsgServerAccept AcceptRest) rest = Err e ->
    intercept_fails (128 :: 0 :: MSG_ACCEPTED :: payload)
| accepted_first_append_fails payload accept n rest saccept k e :
    Decode (T := MsgAccept) payload = Ok (accept, n) ->
    0 <= n <= len payload ->
    drop (Z.to_nat n) payload = MSG_SERVER_ACCEPT :: rest ->
    Decode (T := MsgServerAccept AcceptRest) rest = Ok (saccept, k) ->
    Append _ _ [128; 0] accept = Err e ->
    intercept_fails (128 :: 0 :: MSG_ACCEPTED :: payload)
| accepted_second_append_fails payload accept n rest saccept k out e :
    Decode (T := MsgAccept) payload = Ok (accept, n) ->
    0 <= n <= len payload ->
    drop (Z.to_nat n) payload = MSG_SERVER_ACCEPT :: rest ->
    Decode (T := MsgServerAccept AcceptRest) rest = Ok (saccept, k) ->
    Append _ _ [128; 0] accept = Ok out ->
    Append _ _ out (set_XorKey saccept 0) = Err e ->
    intercept_fails (128 :: 0 :: MSG_ACCEPTED :: payload).

(** *** The worker of a client port *)

(** What the worker does to the outside: a capture record handed to
    [Proxy.recordPacket], a datagram written to the shared socket. *)
Inductive event :=
| RecordPacket (src dst : Z) (data : list Z)
| WriteTo (addr : AddrPort) (data : list Z).

(** [Proxy.sendToClient]. *)
Definition sendToClient (id : Z) (addr : AddrPort) (data : list Z)
  : list event :=
  [RecordPacket 0 id data; WriteTo addr data].

(** What one [ReadFromUDPAddrPort] on the port's socket gives. *)
Inductive read :=
| Datagram (addr : AddrPort) (data : list Z)
| ReadError (e : error).

(** The body of the loop of [clientPort.serve] for a datagram read. *)
Definition serve_datagram (p : Proxy) (c : clientPort)
    (addr : AddrPort) (data : list Z) : outcome (clientPort * list event) :=
  if negb (bool_decide (addr = realSrv p)) then Done (c, [])
  else
    let data :=
      let xor := xor c mod 256 in
      if negb (xor =? 0) then xorData xor data else data in
    '(data, c) ← interceptServer c data;
    if len data =? 0 then Done (c, [])
    else Done (c, sendToClient (id c) (realCli c) data).

(** [clientPort.serve] over the reads its socket gives, in order: the
    port and the events at the point where the worker returns (a read
    error) or waits for a read the list does not have. *)
Fixpoint serve (p : Proxy) (c : clientPort) (reads : list read)
  : outcome (clientPort * list event) :=
  match reads with
  | [] => Done (c, [])
  | ReadError _ :: _ => Done (c, [])
  | Datagram addr data :: reads =>
      '(c, evs) ← serve_datagram p c addr data;
      '(c, evs') ← serve p c reads;
      Done (c, evs ++ evs')
  end.

End Interceptor.

(** *** The client side of the relay *)

(** [NewProxy]. *)
Definition NewProxy (srv : AddrPort) : Proxy :=
  {| realSrv := srv; clientID := 0; clients := ∅ |}.

(** What the client side does to the outside: a worker started for a new
    port, an effect on the shared capture sink or socket, a datagram written
    on the socket of a port. *)
Inductive wire_event :=
| StartWorker (id : Z)
| Shared (e : event)
| PortWrite (conn : option UDPConn) (addr : AddrPort) (data : list Z).

(** [clientPort.SendToServer]; [werr] is what the write on the port's socket
    answers. *)
Definition SendToServer (p : Proxy) (c : clientPort) (data : list Z)
    (werr : option error) : list wire_event * option error :=
  let data :=
    let xor := xor c mod 256 in
    if negb (xor =? 0) then xorData xor data else data in
  ([PortWrite (lis c) (realSrv p) data], werr).

(** [Proxy.sendAsClient]; [sock] is what [net.ListenUDP] answers if a port
    has to be made.  The capture record is taken before [SendToServer]
    scrambles the bytes. *)
Definition sendAsClient (p : Proxy) (realCli : AddrPort) (data : list Z)
    (sock : result UDPConn) (werr : option error) : Proxy * list wire_event :=
  match getClient p realCli sock with
  | (p, Err _, _) => (p, [])
  | (p, Ok c, started) =>
      let started := if started : bool then [StartWorker (id c)] else [] in
      let recorded := [Shared (RecordPacket (id c) 0 data)] in
      let '(sent, _) := SendToServer p c data werr in
      (p, started ++ recorded ++ sent)
  end.

(** What one [ReadFromUDPAddrPort] on the shared socket gives, with the
    answers of the system calls its handling may make. *)
Inductive client_read :=
| ClientDatagram (addr : AddrPort) (data : list Z)
    (sock : result UDPConn) (werr : option error)
| ClientReadError (e : error).

(** [Proxy.Serve] over the reads of the shared socket, in order, while no
    worker changes a port: the proxy, the events, and the error the loop
    returns with, if it has. *)
Fixpoint Serve (p : Proxy) (reads : list client_read)
  : Proxy * list wire_event * option error :=
  match reads with
  | [] => (p, [], None)
  | ClientReadError e :: _ => (p, [], Some e)
  | ClientDatagram addr data sock werr :: reads =>
      let '(p, evs) := sendAsClient p addr data sock werr in
      let '(p, evs', err) := Serve p reads in
      (p, evs ++ evs', err)
  end.

(** The registry as [getClient] keeps it: a port is registered under the
    address of its client, it has a socket, and its id is one the counter
    has given out; two addresses do not share an id. *)
Definition registry_ok (p : Proxy) : Prop :=
  0 <= clientID p /\
  (forall addr c, clients p !! addr = Some c ->
     realCli c = addr /\ 1 <= id c <= clientID p /\ is_Some (lis c)) /\
  (forall addr1 addr2 c1 c2,
     clients p !! addr1 = Some c1 -> clients p !! addr2 = Some c2 ->
     id c1 = id c2 -> addr1 = addr2).

Section Worker.

Variables MSG_SERVER_INFO MSG_SERVER_ACCEPT MSG_ACCEPTED : Z.

Context {InfoRest AcceptRest MsgAccept : Type}.
Context `{!Message (MsgServerInfo InfoRest)}.
Context `{!Message (MsgServerAccept AcceptRest)}.
Context `{!Message MsgAccept}.

Variable Append : forall T, Message T -> list Z -> T -> result (list Z).

(** One datagram read by the worker of the port registered for the client
    [cli].  The worker holds the pointer the registry holds, so the key the
    interceptor stores shows in the registry entry, where [sendAsClient]
    finds it. *)
Definition serve_registered (p : Proxy) (cli from : AddrPort)
    (data : list Z) : outcome (Proxy * list event) :=
  match clients p !! cli with
  | None => Done (p, [])
  | Some c =>
      '(c, evs) ← serve_datagram MSG_SERVER_INFO MSG_SERVER_ACCEPT
                    MSG_ACCEPTED Append p c from data;
      Done (set_clients p (<[cli := c]> (clients p)), evs)
  end.

End Worker.

End Relay.

(* ===================================================================== *)
(** ** A small registry to run the code on *)
(* ===================================================================== *)

Module Sample.

Import Relay.

(** Modelled from the spec: the opcode table of [netmsg] and the message
    layouts of [noxnet] are not among the sources.  This registry has the
    shape sections 4.1 and 9 of the specification give: an opcode has a
    fixed encoded length or the sentinel [-1]; a truncated message is a
    decode failure; an opcode that is not registered decodes to a generic
    unknown message holding the opcode and the raw bytes.  It registers a
    server-accept message of five payload bytes, the key being the last
    one, and a text message whose first payload byte is the length of the
    rest.  The opcode values are placeholders. *)
Definition MSG_SERVER_INFO : Z := 13.
Definition MSG_SERVER_ACCEPT : Z := 20.
Definition MSG_ACCEPTED : Z := 31.
Definition MSG_TEXT : Z := 168.

(** Server-accept: four bytes of identifier, one byte of key. *)
#[local] Instance accept_codec : Message (MsgServerAccept (list Z)) := {|
  NetOp := fun _ => MSG_SERVER_ACCEPT;
  EncodeSize := fun _ => 5;
  Encode := fun m dst =>
    if len dst <? 5 then Err "short buffer"
    else Ok (take 4 (accept_rest m ++ replicate 4 0) ++ [XorKey m] ++ drop 5 dst);
  Decode := fun data =>
    match data with
    | b0 :: b1 :: b2 :: b3 :: k :: _ =>
        Ok ({| XorKey := k; accept_rest := [b0; b1; b2; b3] |}, 5)
    | _ => Err "unexpected EOF"
    end
|}.

(** The same message with an encoder that refuses every destination, to
    reach the paths behind a failed [Encode]. *)
#[local] Instance refusing_codec : Message (MsgServerAccept unit) := {|
  NetOp := fun _ => MSG_SERVER_ACCEPT;
  EncodeSize := fun _ => 1;
  Encode := fun _ _ => Err "refused";
  Decode := fun data =>
    match data with
    | k :: _ => Ok ({| XorKey := k; accept_rest := tt |}, 1)
    | _ => Err "unexpected EOF"
    end
|}.

(** Server-info: the name, every byte a character. *)
#[local] Instance info_codec : Message (MsgServerInfo unit) := {|
  NetOp := fun _ => MSG_SERVER_INFO;
  EncodeSize := fun m => Z.of_nat (String.length (ServerName m));
  Encode := fun m dst =>
    let bytes := (fun c => Z.of_N (N_of_ascii c)) <$> String.list_ascii_of_string (ServerName m) in
    if len dst <? len bytes then Err "short buffer"
    else Ok (bytes ++ drop (List.length bytes) dst);
  Decode := fun data =>
    Ok ({| ServerName := String.string_of_list_ascii
                           ((fun b => ascii_of_N (Z.to_N b)) <$> data);
           info_rest := tt |}, len data)
|}.

(** Accepted: one payload byte. *)
#[local] Instance accepted_codec : Message Z := {|
  NetOp := fun _ => MSG_ACCEPTED;
  EncodeSize := fun _ => 1;
  Encode := fun m dst =>
    match dst with
    | _ :: dst => Ok (m :: dst)
    | [] => Err "short buffer"
    end;
  Decode := fun data =>
    match data with
    | b :: _ => Ok (b, 1)
    | [] => Err "unexpected EOF"
    end
|}.

(** [Append]: the opcode and the encoded message after the bytes so far. *)
Definition Append (T : Type) (M : Message T) (data : list Z) (m : T)
  : result (list Z) :=
  if EncodeSize m <? 0 then Err "negative size"
  else
    match Encode m (replicate (Z.to_nat (EncodeSize m)) 0) with
    | Ok enc => Ok (data ++ NetOp m :: enc)
    | Err e => Err e
    end.

Inductive message :=
| ServerAccept (m : MsgServerAccept (list Z))
| Text (body : list Z)
| Unknown (op : Z) (data : list Z).

Definition Op_Len (op : Z) : Z :=
  if op =? MSG_SERVER_ACCEPT then 5 else -1.

Definition Op_String (op : Z) : string :=
  if op =? MSG_SERVER_ACCEPT then "MSG_SERVER_ACCEPT"
  else if op =? MSG_TEXT then "MSG_TEXT"
  else "Op(0x" +:+ Hex.EncodeToString [op] +:+ ")".

Definition DecodeNext (st : State) (data : list Z)
  : option message * Z * option error :=
  match data with
  | [] => (None, 0, Some "EOF")
  | op :: payload =>
      if op =? MSG_SERVER_ACCEPT then
        match Decode (T := MsgServerAccept (list Z)) payload with
        | Ok (m, n) => (Some (ServerAccept m), 1 + n, None)
        | Err e => (None, 0, Some e)
        end
      else if op =? MSG_TEXT then
        match payload with
        | k :: body =>
            if len body <? k then (None, 0, Some "unexpected EOF")
            else (Some (Text (take (Z.to_nat k) body)), 2 + Z.max k 0, None)
        | [] => (None, 0, Some "unexpected EOF")
        end
      else (Some (Unknown op payload), len data, None)
  end.

Definition registry : Registry := {|
  AnyMessage := message;
  Netmsg.Op_Len := Op_Len;
  Netmsg.Op_String := Op_String;
  Netmsg.DecodeNext := DecodeNext;
  IsUnknownType := fun m => match m with Unknown _ _ => true | _ => false end
|}.

(** The interceptor over the sample codecs. *)
Definition interceptServer :=
  Relay.interceptServer MSG_SERVER_INFO MSG_SERVER_ACCEPT MSG_ACCEPTED
    (InfoRest := unit) (AcceptRest := list Z) (MsgAccept := Z) Append.

Definition interceptServer_refusing :=
  Relay.interceptServer MSG_SERVER_INFO MSG_SERVER_ACCEPT MSG_ACCEPTED
    (InfoRest := unit) (AcceptRest := unit) (MsgAccept := Z) Append.

(** The worker over the sample codecs. *)
Definition serve_datagram :=
  Relay.serve_datagram MSG_SERVER_INFO MSG_SERVER_ACCEPT MSG_ACCEPTED
    (InfoRest := unit) (AcceptRest := list Z) (MsgAccept := Z) Append.

Definition serve :=
  Relay.serve MSG_SERVER_INFO MSG_SERVER_ACCEPT MSG_ACCEPTED
    (InfoRest := unit) (AcceptRest := list Z) (MsgAccept := Z) Append.

Definition record (data : string) : Decoder.RecordIn :=
  {| Decoder.r_SrcID := 0; Decoder.r_DstID := 1;
     Decoder.r_Src := "srv"; Decoder.r_Dst := "cli";
     Decoder.r_Data := data |}.

Definition state0 : State := {| IsClient := false |}.

(** A client port with no key yet, and the proxy it belongs to, before
    any client is registered. *)
Definition port : clientPort :=
  {| id := 1; realCli := (167772161, 40000); xor := 0; lis := Some 50000 |}.

Definition proxy : Proxy :=
  {| realSrv := (2130706433, 18590); clientID := 0; clients := ∅ |}.

(** The proxy with the port registered for its client, and the worker of
    a registered port over the sample codecs. *)
Definition proxy1 : Proxy :=
  set_clients proxy (<[realCli port := port]> (clients proxy)).

Definition serve_registered :=
  Relay.serve_registered MSG_SERVER_INFO MSG_SERVER_ACCEPT MSG_ACCEPTED
    (InfoRest := unit) (AcceptRest := list Z) (MsgAccept := Z) Append.

(** The decoder on the record with the given data. *)
Definition run (data : string) :=
  Decoder.Decode registry (record data) state0.

End Sample.

(* ===================================================================== *)
(** ** Facts about the runtime pieces and [encoding/hex] *)
(* ===================================================================== *)

Lemma len_nonneg {A} (l : list A) : 0 <= len l.
Proof. unfold len. lia. Qed.

Lemma len_cons {A} (x : A) (l : list A) : len (x :: l) = 1 + len l.
Proof. unfold len. simpl. lia. Qed.

Lemma slice_to_Done {A} (s r : list A) (hi : Z) :
  slice_to s hi = Done r <-> 0 <= hi <= len s /\ r = take (Z.to_nat hi) s.
Proof.
  unfold slice_to.
  destruct (hi <? 0) eqn:E1; destruct (len s <? hi) eqn:E2; simpl;
    split; try (intros [H _]; lia); try discriminate.
  - intros [= <-]. split; [lia | reflexivity].
  - intros [_ ->]. reflexivity.
Qed.

Lemma slice_from_Done {A} (s r : list A) (lo : Z) :
  slice_from s lo = Done r <-> 0 <= lo <= len s /\ r = drop (Z.to_nat lo) s.
Proof.
  unfold slice_from.
  destruct (lo <? 0) eqn:E1; destruct (len s <? lo) eqn:E2; simpl;
    split; try (intros [H _]; lia); try discriminate.
  - intros [= <-]. split; [lia | reflexivity].
  - intros [_ ->]. reflexivity.
Qed.

Lemma slice_from_ok {A} (s : list A) (lo : Z) :
  0 <= lo <= len s -> slice_from s lo = Done (drop (Z.to_nat lo) s).
Proof. intros H. apply slice_from_Done. auto. Qed.

Lemma slice_to_ok {A} (s : list A) (hi : Z) :
  0 <= hi <= len s -> slice_to s hi = Done (take (Z.to_nat hi) s).
Proof. intros H. apply slice_to_Done. auto. Qed.

Lemma slice_to_beyond {A} (s : list A) (hi : Z) :
  len s < hi -> slice_to s hi = Panic.
Proof.
  intros H. unfold slice_to.
  replace (len s <? hi) with true by (symmetry; apply Z.ltb_lt; lia).
  now rewrite orb_true_r.
Qed.

Module HexFacts.

Import Hex.



(** Strings are taken two characters at a time. *)
Lemma string_pair_ind (P : string -> Prop) :
  P EmptyString ->
  (forall c, P (String c EmptyString)) ->
  (forall c d s, P s -> P (String c (String d s))) ->
  forall s, P s.
Proof.
  intros H0 H1 H2.
  fix IH 1. intros [|c [|d s]]; [exact H0 | apply H1 | apply H2, IH].
Qed.


(** Only the empty string decodes to no bytes at all. *)
Lemma DecodeString_nonempty s b raw :
  DecodeString s = Ok (b :: raw) -> s <> EmptyString.
Proof. intros H ->. discriminate. Qed.

End HexFacts.


(** The test [b & 0x80 != 0] reads bit 7. *)
Lemma land_128_testbit (b : Z) : negb (Z.land b 128 =? 0) = Z.testbit b 7.
Proof.
  change 128 with (2 ^ 7).
  destruct (Z.testbit b 7) eqn:E.
  - apply negb_true_iff, Z.eqb_neq. intros H.
    assert (Ht : Z.testbit (Z.land b (2 ^ 7)) 7 = true).
    { rewrite Z.land_spec, E, Z.pow2_bits_true; [reflexivity | lia]. }
    rewrite H, Z.bits_0 in Ht. discriminate.
  - apply negb_false_iff, Z.eqb_eq. apply Z.bits_inj'. intros n Hn.
    rewrite Z.land_spec, Z.bits_0.
    destruct (Z.eq_dec n 7) as [->|Hne].
    + now rewrite E.
    + rewrite Z.pow2_bits_false by lia. apply andb_false_r.
Qed.

(* ===================================================================== *)
(** ** The capture decoder *)
(* ===================================================================== *)

Module DecoderFacts.

Import Decoder.

(** Unfolds the sequencing of outcomes. *)
Ltac unbind := unfold mbind, outcome_bind, Go.bind in *.

Section WithRegistry.

Variable R : Registry.

(** An iteration of the loop takes at least one byte. *)
Lemma next_size_pos dec op data sz v lenOK :
  next_size R dec (op :: data) op = (sz, v, lenOK) -> 1 <= sz.
Proof.
  unfold next_size.
  pose proof (len_nonneg data) as Hl. rewrite len_cons.
  destruct (DecodeNext R dec (op :: data)) as [[m n] err].
  destruct ((0 <=? Op_Len R op) && (Op_Len R op <=? 1 + len data)) eqn:E1.
  - apply andb_true_iff in E1 as [E1 _]. apply Z.leb_le in E1.
    destruct err; [intros [= <- _ _]; lia|].
    destruct ((0 <? n) && negb (isUnknown R m)) eqn:E2; intros [= <- _ _].
    + apply andb_true_iff in E2 as [E2 _]. apply Z.ltb_lt in E2. lia.
    + lia.
  - destruct err; [intros [= <- _ _]; lia|].
    destruct ((0 <? n) && negb (isUnknown R m)) eqn:E2; intros [= <- _ _].
    + apply andb_true_iff in E2 as [E2 _]. apply Z.ltb_lt in E2. lia.
    + lia.
Qed.

(** What the loop has done when it is over: it has added one entry to
    [Ops] and to [Msgs] per message, the first for the opcode the payload
    starts with, and [allSplit] has stayed set exactly on a cleanly split
    payload. *)
Lemma split_loop_Done fuel dec : forall data o b o' b',
  split_loop R fuel dec data o b = Done (o', b') ->
  same_but_messages R o o' /\
  (exists msgs, Msgs o' = Msgs o ++ msgs /\
                Ops o' = Ops o ++ (m_Op <$> msgs) /\
                match data with
                | [] => msgs = []
                | op :: _ => exists m msgs', msgs = m :: msgs' /\
                                             m_Op m = Op_String R op
                end) /\
  (b' = true <-> b = true /\ cleanly_split R dec data).
Proof.
  induction fuel as [|fuel IH]; intros data o b o' b'; simpl.
  - destruct data; [|discriminate]. intros [= <- <-].
    split; [unfold same_but_messages; tauto|]. split.
    + exists []. now rewrite !app_nil_r.
    + split; [intros ->; split; [reflexivity | constructor] | tauto].
  - destruct data as [|op data].
    { intros [= <- <-].
      split; [unfold same_but_messages; tauto|]. split.
      + exists []. now rewrite !app_nil_r.
      + split; [intros ->; split; [reflexivity | constructor] | tauto]. }
    destruct (next_size R dec (op :: data) op) as [[sz v] lenOK] eqn:Hn.
    unbind.
    destruct (slice_to (op :: data) sz) as [msg| |] eqn:Hto; try discriminate.
    destruct (slice_from (op :: data) sz) as [data'| |] eqn:Hfrom;
      try discriminate.
    apply slice_to_Done in Hto as [Hsz ->].
    apply slice_from_Done in Hfrom as [_ ->].
    intros Hrec. apply IH in Hrec as (Hsame & (msgs & HM & HO & _) & Hb).
    simpl in *.
    split; [exact Hsame|]. split.
    + eexists (_ :: msgs). rewrite <- !app_assoc in HM, HO. simpl in HM, HO.
      split; [exact HM|]. split; [exact HO|]. eauto.
    + rewrite Hb. split.
      * intros [Hl Hcs]. destruct lenOK; [|discriminate].
        split; [exact Hl|]. econstructor; eauto.
      * intros [-> Hcs]. inversion Hcs as [|? ? sz' v' Hn' Hsz' Hcs']; subst.
        rewrite Hn in Hn'. injection Hn' as -> -> ->. auto.
Qed.

(** The length of the payload is enough fuel: the loop ends. *)
Lemma split_loop_fuel fuel dec : forall data o b,
  (List.length data <= fuel)%nat ->
  split_loop R fuel dec data o b <> OutOfFuel.
Proof.
  induction fuel as [|fuel IH]; intros data o b Hlen; simpl.
  - destruct data; [discriminate | simpl in Hlen; lia].
  - destruct data as [|op data]; [discriminate|].
    destruct (next_size R dec (op :: data) op) as [[sz v] lenOK] eqn:Hn.
    apply next_size_pos in Hn. unbind. unfold slice_to, slice_from.
    destruct ((sz <? 0) || (len (op :: data) <? sz)); [discriminate|].
    apply IH. rewrite length_drop. cbn [List.length] in *. lia.
Qed.

(** [Decode] on a datagram of two bytes or more, past the header. *)
Lemma Decode_unfold r dec h0 h1 payload :
  Hex.DecodeString (r_Data r) = Ok (h0 :: h1 :: payload) ->
  exists o0 : RecordOut R,
    Decode R r dec =
      match bare_op R (stream_state r) payload with
      | Some s => Done (set_Op R o0 (Some s), stream_state r)
      | None =>
          '(o, allSplit) ← split_loop R (List.length payload)
                             (stream_state r) payload o0 true;
          if allSplit : bool
          then Done (set_Data R o (EmptyString), stream_state r)
          else Done (set_Ops R o (Ops o ++ ["???"]), stream_state r)
      end /\
    SID o0 = Z.ldiff h0 128 /\
    Syn o0 = (if Z.testbit h0 7 then Some h1 else None) /\
    Ack o0 = (if Z.testbit h0 7 then None else Some h1) /\
    Op o0 = None /\ Ops o0 = [] /\ Msgs o0 = [] /\ Data o0 = r_Data r.
Proof.
  intros Hhex. unfold Decode. rewrite Hhex.
  rewrite land_128_testbit.
  destruct (Z.testbit h0 7); eexists; (split; [reflexivity|]);
    repeat split.
Qed.



(** C4, amended.  For a record whose data decodes to a header and a
    payload that is not a single byte failing to decode, the record
    [Decode] returns has no raw data exactly when the payload is cleanly
    split; [Ops] then holds the names of the messages and nothing else.
    Otherwise [Ops] holds these names followed by the sentinel, and the
    data is the hexadecimal string of the input. *)
Theorem Decode_data_omitted_iff_cleanly_split r dec h0 h1 payload o dec' :
  Hex.DecodeString (r_Data r) = Ok (h0 :: h1 :: payload) ->
  bare_op R (stream_state r) payload = None ->
  Decode R r dec = Done (o, dec') ->
  (Data o = EmptyString <-> cleanly_split R (stream_state r) payload) /\
  (cleanly_split R (stream_state r) payload ->
     Ops o = (m_Op <$> Msgs o)) /\
  (~ cleanly_split R (stream_state r) payload ->
     Ops o = (m_Op <$> Msgs o) ++ ["???"] /\ Data o = r_Data r).
Proof.
  intros Hhex Hbare HD.
  destruct (Decode_unfold r dec _ _ _ Hhex)
    as (o0 & HDec & _ & _ & _ & _ & HOps & HMsgs & HData).
  rewrite HDec, Hbare in HD. unbind.
  destruct (split_loop R _ _ payload o0 true) as [[o1 b1]| |] eqn:Hl;
    try discriminate.
  apply split_loop_Done in Hl as (Hsame & (msgs & HM & HO & _) & Hb).
  destruct Hsame as (_ & _ & _ & _ & _ & _ & _ & _ & _ & _ & HD1).
  rewrite HMsgs in HM. rewrite HOps in HO. simpl in HM, HO.
  destruct b1; injection HD as <- _; simpl.
  - assert (Hcs : cleanly_split R (stream_state r) payload)
      by (apply Hb; reflexivity).
    split; [tauto|]. split; [intros _; congruence | tauto].
  - assert (Hcs : ~ cleanly_split R (stream_state r) payload).
    { intros Hcs. assert (false = true) by (apply Hb; auto). discriminate. }
    rewrite HD1, HData.
    split; [|split; [tauto | intros _; split; congruence]].
    split; [|tauto]. intros He.
    exfalso. eapply HexFacts.DecodeString_nonempty; eauto.
Qed.

(** C3.  A payload of two bytes or more that starts with an opcode whose
    declared length is the number of bytes left, and that does not
    decode: the loop takes the size to be that length plus one and slices
    past the end of the payload.  [Decode] panics and there is no output
    record. *)
Theorem Decode_panics_on_truncated_fixed_length
    r dec h0 h1 op rest m n e :
  Hex.DecodeString (r_Data r) = Ok (h0 :: h1 :: op :: rest) ->
  rest <> [] ->
  Op_Len R op = len (op :: rest) ->
  DecodeNext R (stream_state r) (op :: rest) = (m, n, Some e) ->
  Decode R r dec = Panic.
Proof.
  intros Hhex Hrest Hlen Hdn.
  destruct (Decode_unfold r dec _ _ _ Hhex) as (o0 & -> & _).
  destruct rest as [|b rest]; [congruence|].
  cbn [bare_op List.length split_loop].
  assert (Hn : next_size R (stream_state r) (op :: b :: rest) op
               = (len (op :: b :: rest) + 1, None, true)).
  { unfold next_size. rewrite Hlen, Hdn.
    pose proof (len_nonneg (op :: b :: rest)).
    replace (0 <=? len (op :: b :: rest)) with true
      by (symmetry; apply Z.leb_le; lia).
    now rewrite Z.leb_refl. }
  rewrite Hn. unbind.
  rewrite slice_to_beyond by lia. reflexivity.
Qed.

(** C7, amended.  A payload of exactly one byte whose decode fails,
    whatever the declared length of its opcode: [Decode] returns a record
    with the single opcode name [Op], with no [Ops] and no [Msgs], no
    sentinel, and with the raw data kept as it was (it is not left
    out). *)
Theorem Decode_bare_opcode r dec h0 h1 op m n e :
  Hex.DecodeString (r_Data r) = Ok [h0; h1; op] ->
  DecodeNext R (stream_state r) [op] = (m, n, Some e) ->
  exists o,
    Decode R r dec = Done (o, stream_state r) /\
    Op o = Some (Op_String R op) /\ Ops o = [] /\ Msgs o = [] /\
    Data o = r_Data r /\ Data o <> EmptyString.
Proof.
  intros Hhex Hdn.
  destruct (Decode_unfold r dec _ _ _ Hhex)
    as (o0 & -> & _ & _ & _ & _ & HOps & HMsgs & HData).
  unfold bare_op. rewrite Hdn.
  eexists. split; [reflexivity|]. simpl.
  repeat (split; [assumption || reflexivity|]).
  rewrite HData. eapply HexFacts.DecodeString_nonempty; eauto.
Qed.

(** C6, amended.  The record with data ["8005ff"], over a registry in
    which opcode [0xFF] has no fixed length and decodes to an unknown
    message: [sid] is 0, [syn] is 5, [Ops] is the name of the opcode
    followed by the sentinel, there is one entry in [Msgs], and the data
    is kept. *)
Theorem Decode_unrecognized_opcode r dec m n :
  r_Data r = "8005ff" ->
  Op_Len R 255 < 0 ->
  DecodeNext R (stream_state r) [255] = (Some m, n, None) ->
  IsUnknownType R m = true ->
  exists o,
    Decode R r dec = Done (o, stream_state r) /\
    SID o = 0 /\ Syn o = Some 5 /\ Ack o = None /\ Op o = None /\
    Ops o = [Op_String R 255; "???"] /\
    (m_Op <$> Msgs o) = [Op_String R 255] /\
    Data o = "8005ff".
Proof.
  intros HData HLen Hdn Hunk.
  assert (Hhex : Hex.DecodeString (r_Data r) = Ok [128; 5; 255])
    by (rewrite HData; reflexivity).
  destruct (Decode_unfold r dec _ _ _ Hhex)
    as (o0 & -> & HS & HSyn & HAck & HOp & HOps & HMsgs & HD).
  unfold bare_op. rewrite Hdn.
  cbn [List.length split_loop].
  assert (Hn : next_size R (stream_state r) [255] 255 = (1, None, false)).
  { unfold next_size. rewrite Hdn.
    replace (0 <=? Op_Len R 255) with false
      by (symmetry; apply Z.leb_gt; lia).
    simpl. rewrite Hunk. now rewrite andb_false_r. }
  rewrite Hn. unbind. simpl.
  eexists. split; [reflexivity|]. simpl.
  rewrite HS, HSyn, HAck, HOp, HOps, HMsgs, HD, HData.
  repeat split.
Qed.

(** A payload that starts with an opcode of no fixed length, or of a length
    beyond the bytes that are left, and that does not decode, is kept whole
    as one message: [Decode] returns, with the sentinel and the data. *)
Lemma Decode_unsplit_remainder r dec h0 h1 op rest m n e :
  Hex.DecodeString (r_Data r) = Ok (h0 :: h1 :: op :: rest) ->
  rest <> [] ->
  Op_Len R op < 0 \/ len (op :: rest) < Op_Len R op ->
  DecodeNext R (stream_state r) (op :: rest) = (m, n, Some e) ->
  exists o,
    Decode R r dec = Done (o, stream_state r) /\
    Ops o = [Op_String R op; "???"] /\
    (m_Data <$> Msgs o) = [Hex.EncodeToString (op :: rest)] /\
    Data o = r_Data r.
Proof.
  intros Hhex Hrest Hlen Hdn.
  destruct (Decode_unfold r dec _ _ _ Hhex)
    as (o0 & -> & _ & _ & _ & _ & HOps & HMsgs & HData).
  destruct rest as [|b rest]; [congruence|].
  cbn [bare_op List.length split_loop].
  assert (Hn : next_size R (stream_state r) (op :: b :: rest) op
               = (len (op :: b :: rest), None, false)).
  { unfold next_size. rewrite Hdn.
    replace ((0 <=? Op_Len R op) && (Op_Len R op <=? len (op :: b :: rest)))
      with false; [reflexivity|].
    symmetry. apply andb_false_iff.
    destruct Hlen; [left; apply Z.leb_gt | right; apply Z.leb_gt]; lia. }
  rewrite Hn. unbind.
  pose proof (len_nonneg (op :: b :: rest)) as Hl.
  rewrite slice_to_ok, slice_from_ok by lia.
  unfold len. rewrite Nat2Z.id, take_ge, drop_all by reflexivity.
  destruct (List.length rest); simpl;
    (eexists; split; [reflexivity|]; simpl;
     rewrite HOps, HMsgs, HData; auto).
Qed.

(** Whatever the registry, the record with data ["8005ff"] does not
    come out with the sentinel as its only [Ops] entry and its data
    kept. *)
Lemma Decode_8005ff_not_sentinel_only r dec o dec' :
  r_Data r = "8005ff" ->
  Decode R r dec = Done (o, dec') ->
  ~ (Ops o = ["???"] /\ Data o = "8005ff").
Proof.
  intros HData HD [HO HDo].
  assert (Hhex : Hex.DecodeString (r_Data r) = Ok [128; 5; 255])
    by (rewrite HData; reflexivity).
  destruct (Decode_unfold r dec _ _ _ Hhex)
    as (o0 & HDec & _ & _ & _ & _ & HOps & HMsgs & _).
  rewrite HDec in HD.
  destruct (bare_op R (stream_state r) [255]).
  - injection HD as <- _. simpl in HO. congruence.
  - unbind.
    destruct (split_loop R _ _ [255] o0 true) as [[o1 b1]| |] eqn:Hl;
      try discriminate.
    apply split_loop_Done
      in Hl as (_ & (msgs & _ & HO1 & (m & msgs' & -> & _)) & _).
    rewrite HOps in HO1. simpl in HO1.
    destruct b1; injection HD as <- _; simpl in HO, HDo.
    + discriminate.
    + rewrite HO1 in HO. simpl in HO.
      apply (f_equal List.length) in HO.
      rewrite length_cons, length_app in HO. simpl in HO. lia.
Qed.

End WithRegistry.

End DecoderFacts.

(** *** The decoder on concrete capture records *)

Module DecoderScenarios.

Import Decoder DecoderFacts.


Lemma Decode_data_omitted_iff_cleanly_split_witness :
  exists o dec',
    Sample.run "8000140102030437" = Done (o, dec') /\
    (Data o = EmptyString <->
     cleanly_split Sample.registry Sample.state0 [20; 1; 2; 3; 4; 55]) /\
    (cleanly_split Sample.registry Sample.state0 [20; 1; 2; 3; 4; 55] ->
     Ops o = (m_Op <$> Msgs o)) /\
    (~ cleanly_split Sample.registry Sample.state0 [20; 1; 2; 3; 4; 55] ->
     Ops o = (m_Op <$> Msgs o) ++ ["???"] /\ Data o = "8000140102030437").
Proof.
  eexists _, _. split; [reflexivity|].
  eapply (Decode_data_omitted_iff_cleanly_split Sample.registry
            (Sample.record "8000140102030437") Sample.state0
            128 0 [20; 1; 2; 3; 4; 55]); reflexivity.
Defined.

Lemma Decode_panics_on_truncated_fixed_length_witness :
  Sample.run "80001401020304" = Panic.
Proof.
  apply (Decode_panics_on_truncated_fixed_length Sample.registry
           (Sample.record "80001401020304") Sample.state0
           128 0 20 [1; 2; 3; 4] None 0 "unexpected EOF").
  - reflexivity.
  - discriminate.
  - reflexivity.
  - reflexivity.
Defined.

Lemma Decode_bare_opcode_witness :
  exists o,
    Sample.run "8005a8" = Done (o, Sample.state0) /\
    Op o = Some "MSG_TEXT" /\ Ops o = [] /\ Msgs o = [] /\
    Data o = "8005a8" /\ Data o <> EmptyString.
Proof.
  apply (Decode_bare_opcode Sample.registry (Sample.record "8005a8")
           Sample.state0 128 5 168 None 0 "unexpected EOF"); reflexivity.
Defined.

Lemma Decode_unrecognized_opcode_witness :
  exists o,
    Sample.run "8005ff" = Done (o, Sample.state0) /\
    SID o = 0 /\ Syn o = Some 5 /\ Ack o = None /\ Op o = None /\
    Ops o = ["Op(0xff)"; "???"] /\
    (m_Op <$> Msgs o) = ["Op(0xff)"] /\
    Data o = "8005ff".
Proof.
  apply (Decode_unrecognized_opcode Sample.registry (Sample.record "8005ff")
           Sample.state0 (Sample.Unknown 255 []) 1).
  - reflexivity.
  - reflexivity.
  - reflexivity.
  - reflexivity.
Defined.

(** C4, as stated, fails on the record with data ["80"], a datagram of
    one byte.  The output keeps the data, so by the claim not every byte
    was attributed and the sentinel is in [Ops]; but [Ops] is empty.
    Whatever proposition [split] stands for "every payload byte was
    attributed to a cleanly split message", the claim does not hold. *)
Lemma Decode_short_datagram_no_sentinel :
  exists o dec',
    Sample.run "80" = Done (o, dec') /\
    ~ exists split : Prop,
        (Data o = EmptyString <-> split) /\
        (~ split -> (exists ops, Ops o = ops ++ ["???"]) /\ Data o = "80").
Proof.
  eexists _, _. split; [reflexivity|]. simpl.
  intros (split & [H1 H2] & H3).
  destruct H3 as [[ops Hops] _].
  - intros Hs. apply H2 in Hs. discriminate.
  - destruct ops; discriminate.
Qed.

(** C6, as stated, fails: the record with data ["8005ff"] does not decode
    to [sid = 0], [syn = 5], [ops = ["???"]] and the data kept.  [Ops]
    has the name of opcode [0xFF] before the sentinel. *)
Lemma Decode_8005ff_ops_not_only_sentinel :
  ~ exists o dec',
      Sample.run "8005ff" = Done (o, dec') /\
      SID o = 0 /\ Syn o = Some 5 /\ Ops o = ["???"] /\ Data o = "8005ff".
Proof.
  intros (o & dec' & HD & _ & _ & HO & HDo).
  eapply Decode_8005ff_not_sentinel_only; eauto. reflexivity.
Qed.

(** C7, as stated, fails: the payload [a8] is one byte, its opcode has no
    fixed length and it does not decode, yet the output does not count as
    fully split.  In the output format the raw data is present only when
    the payload was not fully split, and here it is present. *)
Lemma Decode_bare_opcode_data_not_omitted :
  Op_Len Sample.registry 168 < 0 /\
  (exists m n e, DecodeNext Sample.registry Sample.state0 [168] = (m, n, Some e)) /\
  ~ exists o dec',
      Sample.run "8005a8" = Done (o, dec') /\
      Op o = Some "MSG_TEXT" /\ Ops o = [] /\ Data o = EmptyString.
Proof.
  split; [reflexivity|]. split; [eexists _, _, _; reflexivity|].
  intros (o & dec' & HD & _ & _ & HDo).
  injection HD as <- _. discriminate.
Qed.

End DecoderScenarios.

(* ===================================================================== *)
(** ** The relay *)
(* ===================================================================== *)

Module RelayFacts.

Import Relay.
Import DecoderFacts.

(** [copy] of three header bytes into a fresh buffer. *)
Lemma copy_header (a b c : Z) (n : nat) :
  copy (replicate (3 + n) 0) [a; b; c] = a :: b :: c :: replicate n 0.
Proof. unfold copy. rewrite length_replicate. simpl. now destruct n. Qed.

(** [modifyMessage] on a datagram with its three leading bytes: the
    decoded message goes through [fnc] and is encoded into a zeroed buffer
    of the size it asks for, after the three bytes. *)
Lemma modifyMessage_unfold {T} `{!Message T} {S : Type}
    (a b c : Z) (payload : list Z) (fnc : T -> S -> T * S) (s : S) :
  modifyMessage (a :: b :: c :: payload) fnc s =
    match Decode payload with
    | Err _ => Done (a :: b :: c :: payload, s)
    | Ok (msg, _) =>
        let '(msg, s) := fnc msg s in
        if EncodeSize msg <? 0 then Panic
        else
          match Encode msg (replicate (Z.to_nat (EncodeSize msg)) 0) with
          | Err _ => Done (a :: b :: c :: payload, s)
          | Ok enc => Done (a :: b :: c :: enc, s)
          end
    end.
Proof.
  unfold modifyMessage.
  rewrite slice_from_ok by (rewrite !len_cons; pose proof (len_nonneg payload); lia).
  unbind. change (drop (Z.to_nat 3) (a :: b :: c :: payload)) with payload.
  destruct (Decode payload) as [[msg n]|e]; [|reflexivity].
  destruct (fnc msg s) as [msg' s'].
  unfold make_bytes.
  destruct (EncodeSize msg' <? 0) eqn:Hsz.
  - apply Z.ltb_lt in Hsz.
    destruct (3 + EncodeSize msg' <? 0) eqn:Hsz3; [reflexivity|].
    apply Z.ltb_ge in Hsz3.
    rewrite slice_to_ok by (rewrite !len_cons; pose proof (len_nonneg payload); lia).
    unfold slice_from.
    replace (len _ <? 3) with true; [reflexivity|].
    symmetry. apply Z.ltb_lt. unfold len, copy.
    rewrite length_app, length_take, length_drop, !length_replicate.
    simpl. lia.
  - apply Z.ltb_ge in Hsz.
    replace (3 + EncodeSize msg' <? 0) with false by (symmetry; apply Z.ltb_ge; lia).
    rewrite slice_to_ok by (rewrite !len_cons; pose proof (len_nonneg payload); lia).
    change (take (Z.to_nat 3) (a :: b :: c :: payload)) with [a; b; c].
    replace (Z.to_nat (3 + EncodeSize msg')) with (3 + Z.to_nat (EncodeSize msg'))%nat by lia.
    rewrite copy_header.
    rewrite slice_from_ok by (rewrite !len_cons; pose proof (len_nonneg (replicate (Z.to_nat (EncodeSize msg')) 0)); lia).
    change (drop (Z.to_nat 3) (a :: b :: c :: ?l)) with l.
    simpl drop.
    destruct (Encode msg' _); reflexivity.
Qed.

(** Scrambling twice with one key gives the bytes back. *)
Lemma xorData_involutive (key : Z) (p : list Z) :
  xorData key (xorData key p) = p.
Proof.
  unfold xorData. induction p as [|b p IH]; [reflexivity|].
  rewrite !fmap_cons, IH. f_equal.
  now rewrite Z.lxor_assoc, Z.lxor_nilpotent, Z.lxor_0_r.
Qed.

(** [xorData] keeps the length, also on the empty slice. *)
Lemma xorData_length (key : Z) (p : list Z) :
  List.length (xorData key p) = List.length p.
Proof. unfold xorData. apply length_fmap. Qed.

Section Interceptor.

Variables MSG_SERVER_INFO MSG_SERVER_ACCEPT MSG_ACCEPTED : Z.

Context {InfoRest AcceptRest MsgAccept : Type}.
Context `{!Message (MsgServerInfo InfoRest)}.
Context `{!Message (MsgServerAccept AcceptRest)}.
Context `{!Message MsgAccept}.

Variable Append : forall T, Message T -> list Z -> T -> result (list Z).

(** The cases of a Go [switch] are distinct constants. *)
Hypothesis opcodes_distinct : MSG_SERVER_ACCEPT <> MSG_ACCEPTED.

(** The server-accept case of [interceptServer]. *)
Lemma interceptServer_accept c payload :
  interceptServer MSG_SERVER_INFO MSG_SERVER_ACCEPT MSG_ACCEPTED Append
    c (128 :: 0 :: MSG_SERVER_ACCEPT :: payload) =
    match Decode (T := MsgServerAccept AcceptRest) payload with
    | Err _ => Done (128 :: 0 :: MSG_SERVER_ACCEPT :: payload, c)
    | Ok (p, _) =>
        if EncodeSize (set_XorKey p 0) <? 0 then Panic
        else
          match Encode (set_XorKey p 0)
                  (replicate (Z.to_nat (EncodeSize (set_XorKey p 0))) 0) with
          | Err _ => Done (128 :: 0 :: MSG_SERVER_ACCEPT :: payload,
                           set_xor c (XorKey p))
          | Ok enc => Done (128 :: 0 :: MSG_SERVER_ACCEPT :: enc,
                            set_xor c (XorKey p))
          end
    end.
Proof.
  unfold interceptServer. simpl. rewrite Z.eqb_refl.
  rewrite modifyMessage_unfold.
  destruct (Decode payload) as [[p n]|e]; reflexivity.
Qed.

(** The accepted case of [interceptServer], past the first decode. *)
Lemma interceptServer_accepted c payload accept n rest :
  Decode (T := MsgAccept) payload = Ok (accept, n) ->
  0 <= n <= len payload ->
  drop (Z.to_nat n) payload = MSG_SERVER_ACCEPT :: rest ->
  interceptServer MSG_SERVER_INFO MSG_SERVER_ACCEPT MSG_ACCEPTED Append
    c (128 :: 0 :: MSG_ACCEPTED :: payload) =
    match Decode (T := MsgServerAccept AcceptRest) rest with
    | Err _ => Done (128 :: 0 :: MSG_ACCEPTED :: payload, c)
    | Ok (saccept, _) =>
        match Append _ _ [128; 0] accept with
        | Err _ => Done (128 :: 0 :: MSG_ACCEPTED :: payload,
                         set_xor c (XorKey saccept))
        | Ok out =>
            match Append _ _ out (set_XorKey saccept 0) with
            | Err _ => Done (128 :: 0 :: MSG_ACCEPTED :: payload,
                             set_xor c (XorKey saccept))
            | Ok out => Done (out, set_xor c (XorKey saccept))
            end
        end
    end.
Proof.
  intros Hd Hn Hrest. unfold interceptServer. simpl.
  replace (MSG_ACCEPTED =? MSG_SERVER_ACCEPT) with false
    by (symmetry; apply Z.eqb_neq; congruence).
  rewrite Z.eqb_refl.
  pose proof (len_nonneg payload) as Hl.
  rewrite slice_from_ok by (rewrite !len_cons; lia).
  unbind. change (drop (Z.to_nat 2) (128 :: 0 :: ?l)) with l. simpl drop.
  rewrite slice_from_ok by (rewrite !len_cons; lia).
  simpl drop. rewrite drop_0, Hd.
  rewrite slice_from_ok by (rewrite !len_cons; lia).
  replace (Z.to_nat (1 + n)) with (S (Z.to_nat n)) by lia.
  simpl drop. rewrite Hrest. rewrite Z.eqb_refl. simpl negb. cbv iota.
  rewrite slice_from_ok
    by (rewrite !len_cons; pose proof (len_nonneg rest); lia).
  simpl drop. rewrite drop_0.
  destruct (Decode rest) as [[saccept k]|e]; reflexivity.
Qed.

(** C1.  Whenever a decode or an encode step of the interception fails,
    the interceptor returns, and what it returns is the datagram it was
    given, byte for byte. *)
Theorem interceptServer_failure_passes_through c data :
  intercept_fails MSG_SERVER_INFO MSG_SERVER_ACCEPT MSG_ACCEPTED Append data ->
  exists c',
    interceptServer MSG_SERVER_INFO MSG_SERVER_ACCEPT MSG_ACCEPTED Append
      c data = Done (data, c').
Proof.
  intros Hf. destruct Hf as
    [ payload e Hd
    | payload p n p' e Hd -> Hsz He
    | payload e Hd
    | payload p n p' e Hd -> Hsz He
    | payload e Hd
    | payload accept n rest e Hd Hn Hrest Hd2
    | payload accept n rest saccept k e Hd Hn Hrest Hd2 Ha
    | payload accept n rest saccept k out e Hd Hn Hrest Hd2 Ha Ha2 ].
  - unfold interceptServer. simpl. rewrite Z.eqb_refl.
    rewrite modifyMessage_unfold, Hd. eauto.
  - unfold interceptServer. simpl. rewrite Z.eqb_refl.
    rewrite modifyMessage_unfold, Hd. cbv zeta. cbv iota.
    replace (EncodeSize _ <? 0) with false by (symmetry; apply Z.ltb_ge; lia).
    rewrite He. eauto.
  - rewrite interceptServer_accept, Hd. eauto.
  - rewrite interceptServer_accept, Hd.
    replace (EncodeSize _ <? 0) with false by (symmetry; apply Z.ltb_ge; lia).
    rewrite He. eauto.
  - unfold interceptServer. simpl.
    replace (MSG_ACCEPTED =? MSG_SERVER_ACCEPT) with false
      by (symmetry; apply Z.eqb_neq; congruence).
    rewrite Z.eqb_refl.
    pose proof (len_nonneg payload) as Hl.
    rewrite slice_from_ok by (rewrite !len_cons; lia).
    unbind. simpl drop.
    rewrite slice_from_ok by (rewrite !len_cons; lia).
    simpl drop. rewrite drop_0, Hd. eauto.
  - rewrite (interceptServer_accepted c payload accept n rest) by assumption.
    rewrite Hd2. eauto.
  - rewrite (interceptServer_accepted c payload accept n rest) by assumption.
    rewrite Hd2, Ha. eauto.
  - rewrite (interceptServer_accepted c payload accept n rest) by assumption.
    rewrite Hd2, Ha, Ha2. eauto.
Qed.

(** C2.  A server-accept datagram (header [80 00], the opcode at index
    2) with key [K] whose payload decodes to [m] and encodes again with
    the key zeroed: the port's key becomes [K], the output keeps the
    three leading bytes and holds the encoded message after them; when
    the codec reads back what it wrote, the output decodes to a
    server-accept message with key 0 and the other fields of [m]. *)
Theorem interceptServer_zeroes_key c payload m n enc K :
  Decode payload = Ok (m, n) ->
  XorKey m = K ->
  0 <= EncodeSize (set_XorKey m 0) ->
  Encode (set_XorKey m 0)
    (replicate (Z.to_nat (EncodeSize (set_XorKey m 0))) 0) = Ok enc ->
  (exists n', Decode enc = Ok (set_XorKey m 0, n')) ->
  exists out,
    interceptServer MSG_SERVER_INFO MSG_SERVER_ACCEPT MSG_ACCEPTED Append
      c (128 :: 0 :: MSG_SERVER_ACCEPT :: payload)
      = Done (out, set_xor c K) /\
    xor (set_xor c K) = K /\
    take 3 out = [128; 0; MSG_SERVER_ACCEPT] /\
    exists (m' : MsgServerAccept AcceptRest) n',
      Decode (drop 3 out) = Ok (m', n') /\
      XorKey m' = 0 /\ accept_rest m' = accept_rest m.
Proof.
  intros Hd HK Hsz He [n' Hrt]. subst K.
  rewrite interceptServer_accept, Hd.
  replace (EncodeSize _ <? 0) with false by (symmetry; apply Z.ltb_ge; lia).
  rewrite He. eexists. split; [reflexivity|].
  split; [reflexivity|]. split; [reflexivity|].
  exists (set_XorKey m 0), n'. simpl. auto.
Qed.

(** C10.  A server-accept datagram whose payload decodes to [m] and
    whose re-encoding fails: the interceptor returns the datagram it was
    given, and the port's key is the key of [m] all the same. *)
Theorem interceptServer_encode_failure_keeps_key c payload m n e :
  Decode payload = Ok (m, n) ->
  0 <= EncodeSize (set_XorKey m 0) ->
  Encode (set_XorKey m 0)
    (replicate (Z.to_nat (EncodeSize (set_XorKey m 0))) 0) = Err e ->
  exists c',
    interceptServer MSG_SERVER_INFO MSG_SERVER_ACCEPT MSG_ACCEPTED Append
      c (128 :: 0 :: MSG_SERVER_ACCEPT :: payload)
      = Done (128 :: 0 :: MSG_SERVER_ACCEPT :: payload, c') /\
    xor c' = XorKey m /\
    id c' = id c /\ realCli c' = realCli c /\ lis c' = lis c.
Proof.
  intros Hd Hsz He.
  rewrite interceptServer_accept, Hd.
  replace (EncodeSize _ <? 0) with false by (symmetry; apply Z.ltb_ge; lia).
  rewrite He. eexists. split; [reflexivity|]. simpl. auto.
Qed.

(** C8.  A datagram read on the port's socket from an address that is
    not the real server's: the worker records nothing and writes
    nothing, the port is as before (its key was not used and no
    interception took place), and the worker goes on with the reads
    that follow as if the datagram had not come. *)
Theorem serve_discards_foreign_datagram p c addr data reads :
  addr <> realSrv p ->
  serve_datagram MSG_SERVER_INFO MSG_SERVER_ACCEPT MSG_ACCEPTED Append
    p c addr data = Done (c, []) /\
  serve MSG_SERVER_INFO MSG_SERVER_ACCEPT MSG_ACCEPTED Append
    p c (Datagram addr data :: reads)
  = serve MSG_SERVER_INFO MSG_SERVER_ACCEPT MSG_ACCEPTED Append p c reads.
Proof.
  intros Hne.
  assert (Hd : serve_datagram MSG_SERVER_INFO MSG_SERVER_ACCEPT MSG_ACCEPTED
                 Append p c addr data = Done (c, [])).
  { unfold serve_datagram. rewrite bool_decide_eq_false_2 by exact Hne.
    reflexivity. }
  split; [exact Hd|].
  cbn [serve]. rewrite Hd. unbind.
  destruct (serve _ _ _ _ p c reads) as [[c' evs]| |]; reflexivity.
Qed.

End Interceptor.

(** C9.  Acquiring a port for an address that has none, when the socket
    cannot be allocated: the caller gets the error, no worker is started,
    and the registry is the one before the call, with no entry for the
    address.  (The id that was drawn for the port is not given back.) *)
Theorem getClient_listen_failure_rolls_back p addr e :
  clients p !! addr = None ->
  exists p',
    getClient p addr (Err e) = (p', Err e, false) /\
    clients p' = clients p /\
    clients p' !! addr = None /\
    realSrv p' = realSrv p /\
    clientID p' = (clientID p + 1) mod 2 ^ 32.
Proof.
  intros Hnone. unfold getClient. rewrite Hnone. simpl.
  eexists. split; [reflexivity|]. simpl.
  rewrite delete_insert_id by exact Hnone. auto.
Qed.

End RelayFacts.

(** *** The relay on concrete datagrams *)

Module RelayScenarios.

Import Relay RelayFacts.

(** A server-accept datagram cut short after two payload bytes. *)
Lemma interceptServer_failure_passes_through_witness :
  exists c', Sample.interceptServer Sample.port [128; 0; 20; 1; 2]
             = Done ([128; 0; 20; 1; 2], c').
Proof.
  apply (interceptServer_failure_passes_through
           Sample.MSG_SERVER_INFO Sample.MSG_SERVER_ACCEPT Sample.MSG_ACCEPTED
           Sample.Append).
  - discriminate.
  - apply accept_decode_fails with (e := "unexpected EOF"). reflexivity.
Defined.

(** A server-accept datagram with key [0x37]. *)
Lemma interceptServer_zeroes_key_witness :
  exists out,
    Sample.interceptServer Sample.port [128; 0; 20; 1; 2; 3; 4; 55]
      = Done (out, set_xor Sample.port 55) /\
    xor (set_xor Sample.port 55) = 55 /\
    take 3 out = [128; 0; 20] /\
    exists (m' : MsgServerAccept (list Z)) n',
      @Decode _ Sample.accept_codec (drop 3 out) = Ok (m', n') /\
      XorKey m' = 0 /\ accept_rest m' = [1; 2; 3; 4].
Proof.
  apply (interceptServer_zeroes_key
           Sample.MSG_SERVER_INFO Sample.MSG_SERVER_ACCEPT Sample.MSG_ACCEPTED
           Sample.Append Sample.port [1; 2; 3; 4; 55]
           {| XorKey := 55; accept_rest := [1; 2; 3; 4] |} 5
           [1; 2; 3; 4; 0] 55).
  - reflexivity.
  - reflexivity.
  - simpl. lia.
  - reflexivity.
  - exists 5. reflexivity.
Defined.

(** The same message over a codec whose encoder refuses. *)
Lemma interceptServer_encode_failure_keeps_key_witness :
  exists c',
    Sample.interceptServer_refusing Sample.port [128; 0; 20; 55]
      = Done ([128; 0; 20; 55], c') /\
    xor c' = 55 /\
    id c' = 1 /\ realCli c' = (167772161, 40000) /\ lis c' = Some 50000.
Proof.
  apply (interceptServer_encode_failure_keeps_key
           Sample.MSG_SERVER_INFO Sample.MSG_SERVER_ACCEPT Sample.MSG_ACCEPTED
           Sample.Append Sample.port [55]
           {| XorKey := 55; accept_rest := tt |} 1 "refused").
  - reflexivity.
  - simpl. lia.
  - reflexivity.
Defined.

(** A server-accept datagram from an address that is not the server's,
    before one from the server. *)
Lemma serve_discards_foreign_datagram_witness :
  Sample.serve_datagram Sample.proxy Sample.port (3232235777, 9999)
    [128; 0; 20; 1; 2; 3; 4; 55]
  = Done (Sample.port, []) /\
  Sample.serve Sample.proxy Sample.port
    [Datagram (3232235777, 9999) [128; 0; 20; 1; 2; 3; 4; 55];
     Datagram (2130706433, 18590) [128; 0; 20; 1; 2; 3; 4; 55]]
  = Sample.serve Sample.proxy Sample.port
    [Datagram (2130706433, 18590) [128; 0; 20; 1; 2; 3; 4; 55]].
Proof.
  apply (serve_discards_foreign_datagram
           Sample.MSG_SERVER_INFO Sample.MSG_SERVER_ACCEPT Sample.MSG_ACCEPTED
           Sample.Append Sample.proxy Sample.port (3232235777, 9999)).
  simpl. intros [= ? ?].
Defined.

(** The first client of a proxy, the socket refused. *)
Lemma getClient_listen_failure_rolls_back_witness :
  exists p',
    getClient Sample.proxy (167772161, 40000) (Err "bind: no ports left")
      = (p', Err "bind: no ports left", false) /\
    clients p' = clients Sample.proxy /\
    clients p' !! (167772161, 40000) = None /\
    realSrv p' = realSrv Sample.proxy /\
    clientID p' = (clientID Sample.proxy + 1) mod 2 ^ 32.
Proof.
  apply (getClient_listen_failure_rolls_back Sample.proxy
           (167772161, 40000) "bind: no ports left").
  reflexivity.
Defined.

(** End-to-end scenario 2 of the specification: the server accepts with
    key [0x37]; the client is sent the message with the key zeroed, and the
    next datagram from the server is decrypted with [0x37] before it is
    forwarded. *)
Example serve_accept_then_traffic :
  Sample.serve Sample.proxy Sample.port
    [Datagram (2130706433, 18590) [128; 0; 20; 1; 2; 3; 4; 55];
     Datagram (2130706433, 18590) [55; 54; 53]]
  = Done (set_xor Sample.port 55,
          [RecordPacket 0 1 [128; 0; 20; 1; 2; 3; 4; 0];
           WriteTo (167772161, 40000) [128; 0; 20; 1; 2; 3; 4; 0];
           RecordPacket 0 1 [0; 1; 2];
           WriteTo (167772161, 40000) [0; 1; 2]]).
Proof. reflexivity. Qed.

End RelayScenarios.

(* ===================================================================== *)
(** ** More on the capture decoder *)
(* ===================================================================== *)

Module HexMore.

Import Hex HexFacts.

(** Two characters make one byte. *)
Lemma DecodeString_length s raw :
  DecodeString s = Ok raw -> String.length s = (2 * List.length raw)%nat.
Proof.
  revert raw. induction s as [| c | c d s IH] using string_pair_ind;
    intros raw; simpl.
  - intros [= <-]. reflexivity.
  - destruct (fromHexChar c); discriminate.
  - destruct (fromHexChar c) as [a|]; [|discriminate].
    destruct (fromHexChar d) as [b|]; [|discriminate].
    destruct (DecodeString s) as [l|e]; [|discriminate].
    intros [= <-]. rewrite (IH l eq_refl). simpl. lia.
Qed.

(** A character that is no hexadecimal digit makes the string invalid. *)
Lemma DecodeString_bad_digit s c :
  In c (String.list_ascii_of_string s) -> fromHexChar c = None ->
  exists e, DecodeString s = Err e.
Proof.
  intros Hin Hc. induction s as [| c' | c' d s IH] using string_pair_ind;
    simpl in *.
  - contradiction.
  - destruct Hin as [->|[]]. rewrite Hc. eauto.
  - destruct Hin as [->|[->|Hin]].
    + rewrite Hc. eauto.
    + rewrite Hc. destruct (fromHexChar c'); eauto.
    + destruct (fromHexChar c'); [|eauto].
      destruct (fromHexChar d); [|eauto].
      destruct (IH Hin) as [e ->]. eauto.
Qed.

(** Encoding goes through concatenation. *)
Lemma EncodeToString_app l1 l2 :
  EncodeToString (l1 ++ l2) = EncodeToString l1 +:+ EncodeToString l2.
Proof. induction l1 as [|b l1 IH]; simpl; [reflexivity | now rewrite IH]. Qed.

End HexMore.

Module DecoderMore.

Import Decoder DecoderFacts.

Section WithRegistry.

Variable R : Registry.

(** The messages the loop adds are the payload cut into consecutive
    pieces, none of them empty. *)
Lemma split_loop_chunks fuel dec : forall data o b o' b',
  split_loop R fuel dec data o b = Done (o', b') ->
  exists chunks msgs,
    Msgs o' = Msgs o ++ msgs /\
    concat chunks = data /\
    Forall (fun ch => ch <> []) chunks /\
    (m_Data <$> msgs) = (Hex.EncodeToString <$> chunks) /\
    (m_Len <$> msgs) = (len <$> chunks) /\
    (m_Op <$> msgs) = ((fun ch => Op_String R (hd 0 ch)) <$> chunks).
Proof.
  induction fuel as [|fuel IH]; intros data o b o' b'; simpl.
  - destruct data; [|discriminate]. intros [= <- <-].
    exists [], []. rewrite app_nil_r. repeat split; constructor.
  - destruct data as [|op data].
    { intros [= <- <-]. exists [], []. rewrite app_nil_r.
      repeat split; constructor. }
    destruct (next_size R dec (op :: data) op) as [[sz v] lenOK] eqn:Hn.
    apply next_size_pos in Hn. unbind.
    destruct (slice_to (op :: data) sz) as [msg| |] eqn:Hto; try discriminate.
    destruct (slice_from (op :: data) sz) as [data'| |] eqn:Hfrom;
      try discriminate.
    apply slice_to_Done in Hto as [Hsz ->].
    apply slice_from_Done in Hfrom as [_ ->].
    intros Hrec.
    apply IH in Hrec as (chunks & msgs & HM & Hc & Hne & HD & HL & HO).
    simpl in HM. rewrite <- app_assoc in HM. simpl in HM.
    exists (take (Z.to_nat sz) (op :: data) :: chunks). eexists (_ :: msgs).
    split; [exact HM|].
    assert (Hsz1 : Z.to_nat sz = S (Z.to_nat (sz - 1))) by lia.
    split; [simpl concat; rewrite Hc; apply take_drop|].
    split; [constructor; [rewrite Hsz1; discriminate | exact Hne]|].
    rewrite !fmap_cons, HD, HL, HO. cbn [m_Data m_Len m_Op].
    rewrite Hsz1. repeat split.
Qed.

(** The output of [Decode] keeps what identifies the record. *)
Lemma Decode_identity r dec o dec' :
  Decode R r dec = Done (o, dec') ->
  SrcID o = r_SrcID r /\ DstID o = r_DstID r /\
  Src o = r_Src r /\ Dst o = r_Dst r.
Proof.
  unfold Decode.
  destruct (Hex.DecodeString (r_Data r)) as [raw|e];
    [|intros [= <- _]; simpl; auto].
  destruct raw as [|h0 [|h1 payload]]; try (intros [= <- _]; simpl; auto).
  set (o1 := if negb (Z.land h0 128 =? 0) then _ else _).
  assert (Ho1 : SrcID o1 = r_SrcID r /\ DstID o1 = r_DstID r /\
                Src o1 = r_Src r /\ Dst o1 = r_Dst r)
    by (subst o1; destruct (negb (Z.land h0 128 =? 0)); simpl; auto).
  clearbody o1.
  destruct (bare_op R _ payload); [intros [= <- _]; simpl; exact Ho1|].
  unbind.
  destruct (split_loop R _ _ payload o1 true) as [[o2 b2]| |] eqn:Hl;
    try discriminate.
  apply split_loop_Done in Hl as ((H1 & H2 & H3 & H4 & _) & _).
  destruct b2; intros [= <- _]; simpl; intuition congruence.
Qed.

(** The [Len] of the output: the number of bytes when the data is valid
    hexadecimal, 0 otherwise. *)
Lemma Decode_Len r dec o dec' :
  Decode R r dec = Done (o, dec') ->
  match Hex.DecodeString (r_Data r) with
  | Ok raw => Len o = len raw
  | Err _ => Len o = 0
  end.
Proof.
  unfold Decode.
  destruct (Hex.DecodeString (r_Data r)) as [raw|e];
    [|intros [= <- _]; reflexivity].
  destruct raw as [|h0 [|h1 payload]]; try (intros [= <- _]; reflexivity).
  set (o1 := if negb (Z.land h0 128 =? 0) then _ else _).
  assert (Ho1 : Len o1 = len (h0 :: h1 :: payload))
    by (subst o1; destruct (negb (Z.land h0 128 =? 0)); reflexivity).
  clearbody o1.
  destruct (bare_op R _ payload); [intros [= <- _]; exact Ho1|].
  unbind.
  destruct (split_loop R _ _ payload o1 true) as [[o2 b2]| |] eqn:Hl;
    try discriminate.
  apply split_loop_Done in Hl as ((_ & _ & _ & _ & _ & _ & _ & _ & H9 & _) & _).
  destruct b2; intros [= <- _]; simpl; congruence.
Qed.

(** The output record does not depend on the decode state [Decode] is
    given, and the state it leaves does not depend on it either once the
    datagram has a header. *)
Lemma Decode_state_irrelevant r dec1 dec2 :
  match Decode R r dec1, Decode R r dec2 with
  | Done (o1, _), Done (o2, _) => o1 = o2
  | Panic, Panic => True
  | _, _ => False
  end.
Proof.
  unfold Decode.
  destruct (Hex.DecodeString (r_Data r)) as [raw|e]; [|reflexivity].
  destruct raw as [|h0 [|h1 payload]]; try reflexivity.
  set (o1 := if negb (Z.land h0 128 =? 0) then _ else _). clearbody o1.
  match goal with
  | |- context [bare_op R ?d payload] => set (st := d)
  end.
  destruct (bare_op R st payload); [reflexivity|].
  unbind.
  pose proof (split_loop_fuel R (List.length payload) st payload o1 true
                (Nat.le_refl _)) as Hf.
  destruct (split_loop R _ st payload o1 true) as [[o2 b2]| |];
    [destruct b2; reflexivity | exact I | congruence].
Qed.

(** A data string that is no valid hexadecimal or too short for a
    header. *)
Lemma no_header r :
  Nat.Odd (String.length (r_Data r)) \/
  (exists c, In c (String.list_ascii_of_string (r_Data r)) /\
             Hex.fromHexChar c = None) \/
  (String.length (r_Data r) < 4)%nat ->
  match Hex.DecodeString (r_Data r) with
  | Ok raw => len raw < 2
  | Err _ => True
  end.
Proof.
  intros H. destruct (Hex.DecodeString (r_Data r)) as [raw|e] eqn:Hd; [|exact I].
  pose proof (HexMore.DecodeString_length _ _ Hd) as Hl.
  destruct H as [[k Hk]|[(c & Hin & Hc)|Hlt]].
  - lia.
  - destruct (HexMore.DecodeString_bad_digit _ _ Hin Hc) as [e He]. congruence.
  - unfold len. lia.
Qed.

(** X1.  Past the header, and unless the payload is a single byte that
    fails to decode, the messages of the output are the payload cut into
    consecutive non-empty pieces: each message holds the hexadecimal form of
    its piece, the length of the piece and the name of the opcode the piece
    starts with, so that every payload byte is in exactly one message. *)
Theorem Decode_messages_cover_payload r dec h0 h1 payload o dec' :
  Hex.DecodeString (r_Data r) = Ok (h0 :: h1 :: payload) ->
  bare_op R (stream_state r) payload = None ->
  Decode R r dec = Done (o, dec') ->
  exists chunks,
    concat chunks = payload /\
    Forall (fun ch => ch <> []) chunks /\
    (m_Data <$> Msgs o) = (Hex.EncodeToString <$> chunks) /\
    (m_Len <$> Msgs o) = (len <$> chunks) /\
    (m_Op <$> Msgs o) = ((fun ch => Op_String R (hd 0 ch)) <$> chunks).
Proof.
  intros Hhex Hbare HD.
  destruct (Decode_unfold R r dec _ _ _ Hhex)
    as (o0 & HDec & _ & _ & _ & _ & _ & HMsgs & _).
  rewrite HDec, Hbare in HD. unbind.
  destruct (split_loop R _ _ payload o0 true) as [[o1 b1]| |] eqn:Hl;
    try discriminate.
  apply split_loop_chunks in Hl as (chunks & msgs & HM & Hrest).
  rewrite HMsgs in HM. simpl in HM. subst msgs.
  exists chunks. destruct b1; injection HD as <- _; exact Hrest.
Qed.

(** X2.  Whatever the path it takes, the record [Decode] returns has the
    ids and the addresses of the input record, and its [Len] is the number
    of bytes of the datagram, half the number of characters of the data; it
    is 0 when the data is no valid hexadecimal. *)
Theorem Decode_keeps_identity_and_length r dec o dec' :
  Decode R r dec = Done (o, dec') ->
  SrcID o = r_SrcID r /\ DstID o = r_DstID r /\
  Src o = r_Src r /\ Dst o = r_Dst r /\
  match Hex.DecodeString (r_Data r) with
  | Ok _ => 2 * Len o = Z.of_nat (String.length (r_Data r))
  | Err _ => Len o = 0
  end.
Proof.
  intros HD.
  destruct (Decode_identity r dec o dec' HD) as (H1 & H2 & H3 & H4).
  repeat (split; [assumption|]).
  pose proof (Decode_Len r dec o dec' HD) as HL.
  destruct (Hex.DecodeString (r_Data r)) as [raw|e] eqn:Hd; [|exact HL].
  rewrite HL, (HexMore.DecodeString_length _ _ Hd). unfold len. lia.
Qed.

(** X3.  A record whose data has an odd number of characters, or a
    character that is no hexadecimal digit, or fewer than four characters,
    comes back without header, sequence number, opcode or messages, with its
    data as it was, and the decode state is not touched. *)
Theorem Decode_without_header r dec :
  Nat.Odd (String.length (r_Data r)) \/
  (exists c, In c (String.list_ascii_of_string (r_Data r)) /\
             Hex.fromHexChar c = None) \/
  (String.length (r_Data r) < 4)%nat ->
  exists o,
    Decode R r dec = Done (o, dec) /\
    Hdr o = EmptyString /\ SID o = 0 /\ Syn o = None /\ Ack o = None /\
    Op o = None /\ Ops o = [] /\ Msgs o = [] /\ Data o = r_Data r.
Proof.
  intros H. apply no_header in H. unfold Decode.
  destruct (Hex.DecodeString (r_Data r)) as [raw|e].
  - destruct raw as [|h0 [|h1 payload]].
    + eexists. split; [reflexivity|]. simpl. repeat split.
    + eexists. split; [reflexivity|]. simpl. repeat split.
    + rewrite !len_cons in H. pose proof (len_nonneg payload). lia.
  - eexists. split; [reflexivity|]. simpl. repeat split.
Qed.

(** The size of a message of known length with bytes to spare, when the
    decoder, if it succeeds, takes the length the table gives. *)
Lemma next_size_fixed dec op body rest :
  Op_Len R op = len body ->
  (forall m n, DecodeNext R dec (op :: body ++ rest) = (m, n, None) ->
               0 < n -> isUnknown R m = false -> n = Op_Len R op + 1) ->
  exists v, next_size R dec (op :: body ++ rest) op = (len body + 1, v, true).
Proof.
  intros Hlen Hcons. unfold next_size.
  pose proof (len_nonneg body) as Hb. pose proof (len_nonneg rest) as Hr.
  assert (Hl : len (op :: body ++ rest) = 1 + len body + len rest).
  { unfold len. simpl. rewrite length_app. lia. }
  rewrite Hlen, Hl.
  replace ((0 <=? len body) && (len body <=? 1 + len body + len rest))
    with true by (symmetry; apply andb_true_iff; split; apply Z.leb_le; lia).
  destruct (DecodeNext R dec (op :: body ++ rest)) as [[m n] err] eqn:Hd.
  destruct err; [eauto|].
  destruct (0 <? n) eqn:Hn; [|eauto].
  destruct (isUnknown R m) eqn:Hu; [eauto|]. simpl.
  apply Z.ltb_lt in Hn. rewrite (Hcons m n eq_refl Hn Hu), Hlen. eauto.
Qed.

(** The loop on a payload made of whole messages of known length. *)
Lemma split_loop_fixed dec chunks : forall fuel o b,
  (List.length (concat chunks) <= fuel)%nat ->
  Forall (fun ch => exists op body, ch = op :: body /\
                                    Op_Len R op = len body) chunks ->
  (forall data op m n,
     hd_error data = Some op ->
     DecodeNext R dec data = (m, n, None) ->
     0 < n -> isUnknown R m = false -> 0 <= Op_Len R op ->
     n = Op_Len R op + 1) ->
  exists o' msgs,
    split_loop R fuel dec (concat chunks) o b = Done (o', b) /\
    same_but_messages R o o' /\
    Msgs o' = Msgs o ++ msgs /\
    Ops o' = Ops o ++ ((fun ch => Op_String R (hd 0 ch)) <$> chunks) /\
    (m_Data <$> msgs) = (Hex.EncodeToString <$> chunks) /\
    (m_Len <$> msgs) = (len <$> chunks).
Proof.
  induction chunks as [|ch chunks IH]; intros fuel o b Hfuel Hch Hcons.
  - exists o, []. simpl. destruct fuel; simpl; rewrite !app_nil_r;
      (split; [reflexivity|]); unfold same_but_messages; tauto.
  - apply Forall_cons in Hch as [(op & body & -> & Hlen) Hch].
    simpl concat in *.
    destruct fuel as [|fuel]; [simpl in Hfuel; lia|].
    cbn [split_loop app].
    destruct (next_size_fixed dec op body (concat chunks) Hlen) as [v Hn].
    { intros m n Hd Hpos Hu.
      apply (Hcons (op :: body ++ concat chunks) op m n);
        [reflexivity | exact Hd | exact Hpos | exact Hu |].
      rewrite Hlen. apply len_nonneg. }
    change ((op :: body) ++ concat chunks) with (op :: body ++ concat chunks).
    rewrite Hn. unbind.
    pose proof (len_nonneg body) as Hb.
    assert (Hl : len (op :: body ++ concat chunks)
                 = 1 + len body + len (concat chunks)).
    { unfold len. simpl. rewrite length_app. lia. }
    pose proof (len_nonneg (concat chunks)) as Hr.
    rewrite slice_to_ok, slice_from_ok by lia.
    replace (Z.to_nat (len body + 1)) with (S (List.length body))
      by (unfold len; lia).
    cbn [take drop]. rewrite take_app_length, drop_app_length.
    match goal with
    | |- context [split_loop R fuel dec (concat chunks) ?o1 b] =>
        destruct (IH fuel o1 b) as (o' & msgs & Hrun & Hsame & HM & HO & HD & HL)
    end.
    { simpl in Hfuel. rewrite length_app in Hfuel. lia. }
    { exact Hch. }
    { exact Hcons. }
    rewrite Hrun. simpl in HM, HO. rewrite <- app_assoc in HM, HO.
    exists o'. eexists (_ :: msgs).
    split; [reflexivity|].
    split; [exact Hsame|].
    split; [exact HM|].
    split; [exact HO|].
    rewrite !fmap_cons, HD, HL. cbn [m_Data m_Len]. split; reflexivity.
Qed.

(** X4.  A payload that is N whole messages of known length one after
    the other, over a registry whose decoder, when it succeeds on an opcode
    of known length, takes that length: [Decode] returns N messages, one per
    message of the payload and with its bytes, in order; [Ops] has their N
    names and no sentinel, and the raw data is left out. *)
Theorem Decode_fixed_length_messages r dec h0 h1 chunks :
  Hex.DecodeString (r_Data r) = Ok (h0 :: h1 :: concat chunks) ->
  Forall (fun ch => exists op body, ch = op :: body /\
                                    Op_Len R op = len body) chunks ->
  (forall data op m n,
     hd_error data = Some op ->
     DecodeNext R (stream_state r) data = (m, n, None) ->
     0 < n -> isUnknown R m = false -> 0 <= Op_Len R op ->
     n = Op_Len R op + 1) ->
  bare_op R (stream_state r) (concat chunks) = None ->
  exists o,
    Decode R r dec = Done (o, stream_state r) /\
    Data o = EmptyString /\
    Ops o = ((fun ch => Op_String R (hd 0 ch)) <$> chunks) /\
    (m_Data <$> Msgs o) = (Hex.EncodeToString <$> chunks) /\
    (m_Len <$> Msgs o) = (len <$> chunks).
Proof.
  intros Hhex Hch Hcons Hbare.
  destruct (Decode_unfold R r dec _ _ _ Hhex)
    as (o0 & -> & _ & _ & _ & _ & HOps & HMsgs & _).
  rewrite Hbare.
  destruct (split_loop_fixed (stream_state r) chunks
              (List.length (concat chunks)) o0 true (Nat.le_refl _) Hch Hcons)
    as (o' & msgs & -> & _ & HM & HO & HD & HL).
  unbind. eexists. split; [reflexivity|].
  rewrite HMsgs in HM. rewrite HOps in HO. simpl in HM, HO. subst msgs.
  simpl. auto.
Qed.

(** X5.  The loop of [run] writes the outputs of the records it has read,
    in their order, and each output is the one [Decode] gives for its record
    from any decode state: the state shared along the file carries nothing
    from a record to the next.  When the loop ends at the end of the file,
    there is one output per record. *)
Theorem run_loop_outputs input mdec :
  let out := fst (run_loop R input mdec) in
  Forall2 (fun rd o =>
             exists r, rd = JRecord r None /\
                       forall dec, exists dec', Decode R r dec = Done (o, dec'))
          (take (List.length out) input) out /\
  (snd (run_loop R input mdec) = Done None ->
   List.length out = List.length input).
Proof.
  revert mdec. induction input as [|rd input IH]; intros mdec; simpl.
  - split; [constructor | reflexivity].
  - destruct rd as [r werr|e]; [|simpl; split; [constructor | discriminate]].
    destruct (Decode R r mdec) as [[r2 mdec']| |] eqn:HD;
      try (simpl; split; [constructor | discriminate]).
    destruct werr as [e|]; [simpl; split; [constructor | discriminate]|].
    specialize (IH mdec').
    destruct (run_loop R input mdec') as [out res]. simpl in *.
    destruct IH as [IH1 IH2]. split.
    + constructor; [|exact IH1].
      exists r. split; [reflexivity|]. intros dec.
      pose proof (Decode_state_irrelevant r mdec dec) as Hi.
      rewrite HD in Hi.
      destruct (Decode R r dec) as [[o2 st]| |]; try contradiction.
      subst. eauto.
    + intros Hres. rewrite IH2 by exact Hres. reflexivity.
Qed.

(** X24.  The record [Decode] returns for a datagram with a header has
    the decode state set from the record's source id, and it has an opcode
    name or an opcode list, never both: for an empty payload neither, with
    the raw data left out; for a payload of some bytes either the list and
    the messages, or, and only for a payload of one byte, the single name
    without list and messages. *)
Theorem Decode_op_or_ops r dec h0 h1 payload o dec' :
  Hex.DecodeString (r_Data r) = Ok (h0 :: h1 :: payload) ->
  Decode R r dec = Done (o, dec') ->
  dec' = {| IsClient := negb (r_SrcID r =? 0) |} /\
  match payload with
  | [] => Op o = None /\ Ops o = [] /\ Msgs o = [] /\ Data o = EmptyString
  | _ :: _ =>
      (Op o = None /\ Ops o <> [] /\ Msgs o <> []) \/
      (exists s b, Op o = Some s /\ payload = [b] /\
                   Ops o = [] /\ Msgs o = [])
  end.
Proof.
  intros Hhex HD.
  destruct (Decode_unfold R r dec _ _ _ Hhex)
    as (o0 & HDec & _ & _ & _ & HOp & HOps & HMsgs & _).
  rewrite HDec in HD.
  destruct (bare_op R (stream_state r) payload) as [s|] eqn:Hbare.
  - injection HD as <- <-. split; [reflexivity|].
    destruct payload as [|b [|b' payload]]; try discriminate.
    right. exists s, b. simpl. auto.
  - unbind.
    destruct (split_loop R _ _ payload o0 true) as [[o1 b1]| |] eqn:Hl;
      try discriminate.
    apply split_loop_Done in Hl as (Hsame & (msgs & HM & HO & Hfirst) & Hb).
    destruct Hsame as (_ & _ & _ & _ & _ & _ & _ & _ & _ & HOp1 & _).
    rewrite HMsgs in HM. rewrite HOps in HO. simpl in HM, HO.
    assert (Hst : dec' = stream_state r) by (destruct b1; congruence).
    split; [exact Hst|].
    destruct payload as [|b payload].
    + assert (b1 = true) as -> by (apply Hb; split; [reflexivity | constructor]).
      rewrite Hfirst in HM, HO. simpl in HO. injection HD as <- _.
      simpl. rewrite HOp1, HOp, HM, HO. auto.
    + destruct Hfirst as (m & msgs' & -> & _). left.
      destruct b1; injection HD as <- _; simpl;
        rewrite ?HOp1, ?HOp, ?HM, ?HO; repeat split; discriminate.
Qed.

End WithRegistry.

End DecoderMore.

(* ===================================================================== *)
(** ** More on the relay *)
(* ===================================================================== *)

Module RelayMore.

Import Relay RelayFacts.
Import DecoderFacts.

(** X6.  Scrambling a byte sequence twice with the same key gives the
    sequence back, whatever the key and also for the empty sequence. *)
Theorem xorData_twice (key : Z) (p : list Z) :
  xorData key (xorData key p) = p /\ xorData key [] = [].
Proof.
  split; [|reflexivity].
  unfold xorData. induction p as [|b p IH]; [reflexivity|].
  rewrite !fmap_cons, IH. f_equal.
  now rewrite Z.lxor_assoc, Z.lxor_nilpotent, Z.lxor_0_r.
Qed.

(** The exclusive or of two bytes is a byte. *)
Lemma lxor_byte (b k : Z) :
  0 <= b < 256 -> 0 <= k < 256 -> 0 <= Z.lxor b k < 256.
Proof.
  intros Hb Hk.
  assert (Hn : 0 <= Z.lxor b k) by (apply Z.lxor_nonneg; lia).
  split; [exact Hn|].
  destruct (Z.eq_dec (Z.lxor b k) 0) as [->|Hne]; [lia|].
  change 256 with (2 ^ 8). apply Z.log2_lt_pow2; [lia|].
  eapply Z.le_lt_trans; [apply Z.log2_lxor; lia|].
  apply Z.max_lub_lt.
  - destruct (Z.eq_dec b 0) as [->|Hb0]; [simpl; lia|].
    apply Z.log2_lt_pow2; [lia | change (2 ^ 8) with 256; lia].
  - destruct (Z.eq_dec k 0) as [->|Hk0]; [simpl; lia|].
    apply Z.log2_lt_pow2; [lia | change (2 ^ 8) with 256; lia].
Qed.

(** X7.  [xorData] keeps the length of the data, it keeps bytes bytes
    when the key is a byte, and with key 0 it changes nothing. *)
Theorem xorData_bytes (key : Z) (p : list Z) :
  0 <= key < 256 ->
  Forall (fun b => 0 <= b < 256) p ->
  List.length (xorData key p) = List.length p /\
  Forall (fun b => 0 <= b < 256) (xorData key p) /\
  xorData 0 p = p.
Proof.
  intros Hk Hp. unfold xorData. split; [apply length_fmap|]. split.
  - induction Hp as [|b p Hb Hp IH]; [constructor|].
    rewrite fmap_cons. constructor; [apply lxor_byte; assumption | exact IH].
  - clear Hp. induction p as [|b p IH]; [reflexivity|].
    rewrite fmap_cons, IH, Z.lxor_0_r. reflexivity.
Qed.

Section Interceptor.

Variables MSG_SERVER_INFO MSG_SERVER_ACCEPT MSG_ACCEPTED : Z.

Context {InfoRest AcceptRest MsgAccept : Type}.
Context `{!Message (MsgServerInfo InfoRest)}.
Context `{!Message (MsgServerAccept AcceptRest)}.
Context `{!Message MsgAccept}.

Variable Append : forall T, Message T -> list Z -> T -> result (list Z).

(** A datagram the interceptor has nothing to do with: it is shorter than
    three bytes, or its header and opcode are not those of a handshake
    message. *)
Lemma interceptServer_other c data :
  match data with
  | d0 :: d1 :: d2 :: _ =>
      ~ (d0 = 0 /\ d1 = 0 /\ d2 = MSG_SERVER_INFO) /\
      ~ (d0 = 128 /\ d1 = 0 /\
         (d2 = MSG_SERVER_ACCEPT \/ d2 = MSG_ACCEPTED))
  | _ => True
  end ->
  interceptServer MSG_SERVER_INFO MSG_SERVER_ACCEPT MSG_ACCEPTED Append c data
  = Done (data, c).
Proof.
  destruct data as [|d0 [|d1 [|d2 payload]]]; try reflexivity.
  intros [H1 H2]. unfold interceptServer.
  destruct ((d0 =? 0) && (d1 =? 0)) eqn:E0.
  - apply andb_true_iff in E0 as [Ea Eb].
    apply Z.eqb_eq in Ea, Eb.
    destruct (d2 =? MSG_SERVER_INFO) eqn:E; [|reflexivity].
    apply Z.eqb_eq in E. tauto.
  - destruct ((d0 =? 128) && (d1 =? 0)) eqn:E1; [|reflexivity].
    apply andb_true_iff in E1 as [Ea Eb].
    apply Z.eqb_eq in Ea, Eb.
    destruct (d2 =? MSG_SERVER_ACCEPT) eqn:E2;
      [apply Z.eqb_eq in E2; tauto|].
    destruct (d2 =? MSG_ACCEPTED) eqn:E3;
      [apply Z.eqb_eq in E3; tauto|].
    reflexivity.
Qed.

(** What the interceptor may do to the port: nothing, or set its key, and
    that on a server-accept or an accepted datagram only. *)
Lemma interceptServer_port c data out c' :
  interceptServer MSG_SERVER_INFO MSG_SERVER_ACCEPT MSG_ACCEPTED Append c data
  = Done (out, c') ->
  c' = c \/
  exists K op payload,
    c' = set_xor c K /\ data = 128 :: 0 :: op :: payload /\
    (op = MSG_SERVER_ACCEPT \/ op = MSG_ACCEPTED).
Proof.
  unfold interceptServer.
  destruct data as [|d0 [|d1 [|d2 payload]]];
    try (intros [= <- <-]; left; reflexivity).
  destruct ((d0 =? 0) && (d1 =? 0)) eqn:E0.
  - destruct (d2 =? MSG_SERVER_INFO); [|intros [= <- <-]; auto].
    rewrite modifyMessage_unfold.
    destruct (Decode payload) as [[p n]|e]; [|intros [= <- <-]; auto].
    cbv zeta. cbv iota.
    destruct (EncodeSize _ <? 0); [discriminate|].
    destruct (Encode _ _); intros [= <- <-]; auto.
  - destruct ((d0 =? 128) && (d1 =? 0)) eqn:E1; [|intros [= <- <-]; auto].
    apply andb_true_iff in E1 as [Ea Eb].
    apply Z.eqb_eq in Ea, Eb. subst d0 d1.
    destruct (d2 =? MSG_SERVER_ACCEPT) eqn:E2.
    { apply Z.eqb_eq in E2. subst d2.
      rewrite modifyMessage_unfold.
      destruct (Decode payload) as [[p n]|e]; [|intros [= <- <-]; auto].
      cbv zeta. cbv iota.
      destruct (EncodeSize _ <? 0); [discriminate|].
      destruct (Encode _ _); intros [= <- <-]; right; eauto 10. }
    destruct (d2 =? MSG_ACCEPTED) eqn:E3; [|intros [= <- <-]; auto].
    apply Z.eqb_eq in E3. subst d2. unbind.
    destruct (slice_from _ 2) as [left| |]; try discriminate.
    destruct (slice_from left 1) as [pl| |]; try discriminate.
    destruct (Decode pl) as [[accept n]|e]; [|intros [= <- <-]; auto].
    destruct (slice_from left (1 + n)) as [left'| |]; try discriminate.
    destruct left' as [|op left']; [intros [= <- <-]; auto|].
    destruct (negb (op =? MSG_SERVER_ACCEPT)); [intros [= <- <-]; auto|].
    destruct (slice_from (op :: left') 1) as [pl'| |]; try discriminate.
    destruct (Decode pl') as [[saccept k]|e]; [|intros [= <- <-]; auto].
    destruct (Append _ _ _ accept); [|intros [= <- <-]; right; eauto 10].
    destruct (Append _ _ _ (set_XorKey saccept 0));
      intros [= <- <-]; right; eauto 10.
Qed.

(** X8.  Whatever the datagram, the interceptor leaves the id, the client
    address and the socket of the port as they are, and it changes the key
    on no datagram but one with header [80 00] and the opcode of
    server-accept or accepted. *)
Theorem interceptServer_changes_only_key c data out c' :
  interceptServer MSG_SERVER_INFO MSG_SERVER_ACCEPT MSG_ACCEPTED Append c data
  = Done (out, c') ->
  id c' = id c /\ realCli c' = realCli c /\ lis c' = lis c /\
  (xor c' <> xor c ->
   exists op payload,
     data = 128 :: 0 :: op :: payload /\
     (op = MSG_SERVER_ACCEPT \/ op = MSG_ACCEPTED)).
Proof.
  intros H. apply interceptServer_port in H as [->|(K & op & payload & -> & -> & Hop)].
  - repeat split. congruence.
  - simpl. repeat split. eauto.
Qed.

(** X9.  A datagram shorter than three bytes, or whose first three bytes
    are not [00 00] with the opcode of server-info nor [80 00] with the
    opcode of server-accept or accepted, goes through the interceptor
    unchanged, and so does the port; no codec is called. *)
Theorem interceptServer_leaves_other_traffic c data :
  match data with
  | d0 :: d1 :: d2 :: _ =>
      ~ (d0 = 0 /\ d1 = 0 /\ d2 = MSG_SERVER_INFO) /\
      ~ (d0 = 128 /\ d1 = 0 /\
         (d2 = MSG_SERVER_ACCEPT \/ d2 = MSG_ACCEPTED))
  | _ => True
  end ->
  interceptServer MSG_SERVER_INFO MSG_SERVER_ACCEPT MSG_ACCEPTED Append c data
  = Done (data, c).
Proof. apply interceptServer_other. Qed.

(** X10.  With codecs that ask for no negative buffer size and whose
    accepted decoder reports a number of bytes within what it was given,
    the interceptor returns on every datagram: no input makes it panic. *)
Theorem interceptServer_never_panics c data :
  (forall m : MsgServerInfo InfoRest, 0 <= EncodeSize m) ->
  (forall m : MsgServerAccept AcceptRest, 0 <= EncodeSize m) ->
  (forall payload (m : MsgAccept) n,
     Decode payload = Ok (m, n) -> 0 <= n <= len payload) ->
  exists out c',
    interceptServer MSG_SERVER_INFO MSG_SERVER_ACCEPT MSG_ACCEPTED Append
      c data = Done (out, c').
Proof.
  intros Hinfo Hacc Hdec. unfold interceptServer.
  destruct data as [|d0 [|d1 [|d2 payload]]]; eauto.
  pose proof (len_nonneg payload) as Hl.
  destruct ((d0 =? 0) && (d1 =? 0)).
  - destruct (d2 =? MSG_SERVER_INFO); eauto.
    rewrite modifyMessage_unfold.
    destruct (Decode payload) as [[p n]|e]; eauto.
    cbv zeta. cbv iota.
    replace (EncodeSize _ <? 0) with false
      by (symmetry; apply Z.ltb_ge; apply Hinfo).
    destruct (Encode _ _); eauto.
  - destruct ((d0 =? 128) && (d1 =? 0)); eauto.
    destruct (d2 =? MSG_SERVER_ACCEPT).
    { rewrite modifyMessage_unfold.
      destruct (Decode payload) as [[p n]|e]; eauto.
      cbv zeta. cbv iota.
      replace (EncodeSize _ <? 0) with false
        by (symmetry; apply Z.ltb_ge; apply Hacc).
      destruct (Encode _ _); eauto. }
    destruct (d2 =? MSG_ACCEPTED); eauto.
    rewrite slice_from_ok by (rewrite !len_cons; lia).
    unbind. simpl drop.
    rewrite slice_from_ok by (rewrite !len_cons; lia).
    simpl drop. rewrite drop_0.
    destruct (Decode payload) as [[accept n]|e] eqn:Hd; eauto.
    apply Hdec in Hd.
    rewrite slice_from_ok by (rewrite !len_cons; lia).
    destruct (drop _ _) as [|op left']; eauto.
    destruct (negb (op =? MSG_SERVER_ACCEPT)); eauto.
    rewrite slice_from_ok
      by (rewrite !len_cons; pose proof (len_nonneg left'); lia).
    destruct (Decode _) as [[saccept k]|e]; eauto.
    destruct (Append _ _ _ accept); eauto.
    destruct (Append _ _ _ (set_XorKey saccept 0)); eauto.
Qed.

(** X11.  A server-info datagram (header [00 00]) whose payload decodes
    and encodes again: the output is the three leading bytes followed by the
    encoding of the message with ["Proxy: "] put before its name and its
    other fields as they were; the port, its key included, is unchanged. *)
Theorem interceptServer_renames_server c payload p n enc :
  Decode payload = Ok (p, n) ->
  0 <= EncodeSize (set_ServerName p ("Proxy: " +:+ ServerName p)) ->
  Encode (set_ServerName p ("Proxy: " +:+ ServerName p))
    (replicate
       (Z.to_nat (EncodeSize (set_ServerName p ("Proxy: " +:+ ServerName p))))
       0) = Ok enc ->
  interceptServer MSG_SERVER_INFO MSG_SERVER_ACCEPT MSG_ACCEPTED Append
    c (0 :: 0 :: MSG_SERVER_INFO :: payload)
  = Done (0 :: 0 :: MSG_SERVER_INFO :: enc, c) /\
  info_rest (set_ServerName p ("Proxy: " +:+ ServerName p)) = info_rest p.
Proof.
  intros Hd Hsz He. split; [|reflexivity].
  unfold interceptServer. simpl. rewrite Z.eqb_refl.
  rewrite modifyMessage_unfold, Hd. cbv zeta. cbv iota.
  replace (EncodeSize _ <? 0) with false by (symmetry; apply Z.ltb_ge; lia).
  rewrite He. reflexivity.
Qed.


(** X13.  A read error ends the worker: the reads that come after it in
    the sequence are never handled. *)
Theorem serve_stops_at_read_error p c reads e more :
  serve MSG_SERVER_INFO MSG_SERVER_ACCEPT MSG_ACCEPTED Append
    p c (reads ++ ReadError e :: more)
  = serve MSG_SERVER_INFO MSG_SERVER_ACCEPT MSG_ACCEPTED Append p c reads.
Proof.
  revert c. induction reads as [|rd reads IH]; intros c; [reflexivity|].
  destruct rd as [addr data|e']; [|reflexivity].
  cbn [app serve]. unbind.
  destruct (serve_datagram _ _ _ _ p c addr data) as [[c1 evs]| |];
    try reflexivity.
  now rewrite IH.
Qed.

(** X14.  All the worker of a port ever emits is, for some datagrams, a
    capture record with source 0 and the id of the port as destination
    followed by the write of the same bytes to the client of the port.  No
    datagram goes to another address, none is empty, and the id, the client
    address and the socket of the port stay what they were. *)
Theorem serve_events_for_own_client p c reads c' evs :
  serve MSG_SERVER_INFO MSG_SERVER_ACCEPT MSG_ACCEPTED Append p c reads
  = Done (c', evs) ->
  id c' = id c /\ realCli c' = realCli c /\ lis c' = lis c /\
  exists outs,
    Forall (fun d => d <> []) outs /\
    evs = concat ((fun d => [RecordPacket 0 (id c) d; WriteTo (realCli c) d])
                    <$> outs).
Proof.
  revert c evs. induction reads as [|rd reads IH]; intros c evs.
  - intros [= <- <-]. repeat split. exists []. split; [constructor | reflexivity].
  - destruct rd as [addr data|e];
      [|intros [= <- <-]; repeat split; exists [];
        split; [constructor | reflexivity]].
    cbn [serve]. unbind.
    destruct (serve_datagram _ _ _ _ p c addr data) as [[c1 evs1]| |] eqn:Hs;
      try discriminate.
    destruct (serve _ _ _ _ p c1 reads) as [[c2 evs2]| |] eqn:Hr;
      try discriminate.
    intros [= <- <-].
    apply IH in Hr as (Hi & Hc & Hl & outs & Hne & ->).
    unfold serve_datagram in Hs.
    destruct (negb (bool_decide (addr = realSrv p))).
    { injection Hs as <- <-. repeat split; try assumption.
      exists outs. split; [exact Hne | reflexivity]. }
    unbind.
    destruct (interceptServer _ _ _ _ c _) as [[data' c1']| |] eqn:Hi1;
      try discriminate.
    apply interceptServer_port in Hi1.
    assert (Hsame : id c1' = id c /\ realCli c1' = realCli c /\ lis c1' = lis c).
    { destruct Hi1 as [->|(K & op & pl & -> & _)]; simpl; auto. }
    destruct Hsame as (H1 & H2 & H3).
    destruct (len data' =? 0) eqn:Hlen; injection Hs as <- <-.
    + rewrite Hi, Hc, Hl, H1, H2, H3. repeat split.
      exists outs. split; [exact Hne | reflexivity].
    + rewrite Hi, Hc, Hl, H1, H2, H3. repeat split.
      exists (data' :: outs). split.
      * constructor; [|exact Hne]. intros ->. discriminate.
      * reflexivity.
Qed.

(** X15.  Once the port has a key, a datagram of the real server is
    unscrambled with that key before anything else: when the plain bytes
    are no handshake message, they are what is recorded and what is written
    to the client, and the port keeps its key. *)
Theorem serve_decrypts_before_forwarding p c K plain :
  xor c mod 256 = K -> K <> 0 ->
  plain <> [] ->
  match plain with
  | d0 :: d1 :: d2 :: _ =>
      ~ (d0 = 0 /\ d1 = 0 /\ d2 = MSG_SERVER_INFO) /\
      ~ (d0 = 128 /\ d1 = 0 /\
         (d2 = MSG_SERVER_ACCEPT \/ d2 = MSG_ACCEPTED))
  | _ => True
  end ->
  serve_datagram MSG_SERVER_INFO MSG_SERVER_ACCEPT MSG_ACCEPTED Append
    p c (realSrv p) (xorData K plain)
  = Done (c, [RecordPacket 0 (id c) plain; WriteTo (realCli c) plain]).
Proof.
  intros HK HK0 Hne Hother. unfold serve_datagram.
  rewrite bool_decide_eq_true_2 by reflexivity. simpl negb. cbv iota.
  rewrite HK.
  replace (K =? 0) with false by (symmetry; apply Z.eqb_neq; exact HK0).
  simpl negb. cbv iota.
  assert (Hx : xorData K (xorData K plain) = plain).
  { unfold xorData. clear. induction plain as [|b l IH]; [reflexivity|].
    rewrite !fmap_cons, IH. f_equal.
    now rewrite Z.lxor_assoc, Z.lxor_nilpotent, Z.lxor_0_r. }
  rewrite Hx, (interceptServer_other c plain Hother). unbind.
  destruct plain as [|b l]; [congruence|]. reflexivity.
Qed.

End Interceptor.

(** The three ways of [getClient]: the address has a port; it has none and
    the socket is made; it has none and the socket is refused. *)
Lemma getClient_hit p addr c sock :
  clients p !! addr = Some c -> getClient p addr sock = (p, Ok c, false).
Proof. intros H. unfold getClient. now rewrite H. Qed.

Lemma getClient_new p addr l :
  clients p !! addr = None ->
  let c := {| id := (clientID p + 1) mod 2 ^ 32; realCli := addr;
              xor := 0; lis := Some l |} in
  getClient p addr (Ok l)
  = ({| realSrv := realSrv p; clientID := (clientID p + 1) mod 2 ^ 32;
        clients := <[addr := c]> (clients p) |}, Ok c, true).
Proof.
  intros H. unfold getClient. rewrite H. simpl.
  unfold set_clients, set_clientID, set_lis. simpl.
  now rewrite insert_insert_eq.
Qed.

Lemma getClient_refused p addr e :
  clients p !! addr = None ->
  getClient p addr (Err e)
  = ({| realSrv := realSrv p; clientID := (clientID p + 1) mod 2 ^ 32;
        clients := clients p |}, Err e, false).
Proof.
  intros H. unfold getClient. rewrite H. simpl.
  unfold set_clients, set_clientID. simpl.
  now rewrite delete_insert_id.
Qed.

(** [getClient] keeps the registry in order while ids are left. *)
Lemma getClient_registry_ok p addr sock :
  registry_ok p -> clientID p + 1 < 2 ^ 32 ->
  registry_ok (getClient p addr sock).1.1 /\
  clientID p <= clientID (getClient p addr sock).1.1 <= clientID p + 1.
Proof.
  intros (H0 & Hports & Hinj) Hmax.
  assert (Hid : (clientID p + 1) mod 2 ^ 32 = clientID p + 1)
    by (apply Z.mod_small; lia).
  destruct (clients p !! addr) as [c|] eqn:Hl.
  - rewrite (getClient_hit p addr c sock Hl). simpl.
    split; [exact (conj H0 (conj Hports Hinj)) | lia].
  - destruct sock as [l|e].
    + rewrite (getClient_new p addr l Hl). cbv zeta. simpl. rewrite Hid.
      split; [|lia]. unfold registry_ok. simpl. split; [lia|]. split.
      * intros addr0 c0 Hc0. simpl in Hc0.
        destruct (decide (addr = addr0)) as [<-|Hne].
        -- rewrite lookup_insert_eq in Hc0. injection Hc0 as <-. simpl.
           repeat split; try lia. eauto.
        -- rewrite lookup_insert_ne in Hc0 by exact Hne.
           destruct (Hports _ _ Hc0) as (? & ? & ?). repeat split; auto; lia.
      * intros a1 a2 c1 c2 H1 H2 Heq. simpl in H1, H2.
        destruct (decide (addr = a1)) as [<-|Hn1];
          destruct (decide (addr = a2)) as [<-|Hn2]; try reflexivity.
        -- rewrite lookup_insert_eq in H1. injection H1 as <-.
           rewrite lookup_insert_ne in H2 by exact Hn2.
           destruct (Hports _ _ H2) as (_ & ? & _). simpl in Heq. lia.
        -- rewrite lookup_insert_eq in H2. injection H2 as <-.
           rewrite lookup_insert_ne in H1 by exact Hn1.
           destruct (Hports _ _ H1) as (_ & ? & _). simpl in Heq. lia.
        -- rewrite lookup_insert_ne in H1, H2 by assumption. eauto.
    + rewrite (getClient_refused p addr e Hl). simpl. rewrite Hid.
      split; [|lia]. unfold registry_ok. simpl. split; [lia|]. split.
      * intros addr0 c0 Hc0. simpl in Hc0.
        destruct (Hports _ _ Hc0) as (? & ? & ?). repeat split; auto; lia.
      * intros a1 a2 c1 c2 H1 H2 Heq. simpl in H1, H2. eauto.
Qed.

(** X16.  The first acquisition for an address makes a port with the next
    id, the address, no key and the new socket, registers it and starts its
    worker; from then on every acquisition for the address returns that same
    port, changes nothing in the proxy, starts no worker, and does not
    depend on whether a socket could be made. *)
Theorem getClient_again_same_port p addr l :
  clients p !! addr = None ->
  exists p' c,
    getClient p addr (Ok l) = (p', Ok c, true) /\
    id c = (clientID p + 1) mod 2 ^ 32 /\ realCli c = addr /\
    xor c = 0 /\ lis c = Some l /\
    clients p' !! addr = Some c /\
    forall sock, getClient p' addr sock = (p', Ok c, false).
Proof.
  intros Hl. rewrite (getClient_new p addr l Hl). cbv zeta.
  eexists _, _. split; [reflexivity|]. simpl.
  repeat (split; [reflexivity|]).
  assert (Hin : <[addr := {| id := (clientID p + 1) mod 2 ^ 32;
                             realCli := addr; xor := 0; lis := Some l |}]>
                  (clients p) !! addr
                = Some {| id := (clientID p + 1) mod 2 ^ 32; realCli := addr;
                          xor := 0; lis := Some l |})
    by apply lookup_insert_eq.
  split; [exact Hin|].
  intros sock. apply getClient_hit. exact Hin.
Qed.

(** X17.  Acquiring a port for an address, whether it is there, is made or
    cannot be made, leaves the entries of all other addresses and the server
    address as they are. *)
Theorem getClient_other_addresses p addr sock addr' :
  addr' <> addr ->
  clients (getClient p addr sock).1.1 !! addr' = clients p !! addr' /\
  realSrv (getClient p addr sock).1.1 = realSrv p.
Proof.
  intros Hne.
  destruct (clients p !! addr) as [c|] eqn:Hl.
  - rewrite (getClient_hit p addr c sock Hl). simpl. auto.
  - destruct sock as [l|e].
    + rewrite (getClient_new p addr l Hl). cbv zeta. simpl.
      rewrite lookup_insert_ne by congruence. auto.
    + rewrite (getClient_refused p addr e Hl). simpl. auto.
Qed.

(** [sendAsClient] leaves the proxy as [getClient] does. *)
Lemma sendAsClient_proxy p addr data sock werr :
  (sendAsClient p addr data sock werr).1 = (getClient p addr sock).1.1.
Proof.
  unfold sendAsClient.
  destruct (getClient p addr sock) as [[p' [c|e]] started]; reflexivity.
Qed.

(** X18.  A new proxy has its registry in order, and [Serve] keeps it so
    over any sequence of reads that does not use up the ids: every port is
    registered under the address of its client, has a socket and an id the
    counter has given out, and no two addresses have ports with the same
    id. *)
Theorem Serve_keeps_registry srv p reads :
  registry_ok (NewProxy srv) /\
  (registry_ok p ->
   clientID p + Z.of_nat (List.length reads) < 2 ^ 32 ->
   registry_ok (Serve p reads).1.1).
Proof.
  split.
  - split; [simpl; lia|]. split.
    + intros addr c H. simpl in H. rewrite lookup_empty in H. discriminate.
    + intros a1 a2 c1 c2 H. simpl in H. rewrite lookup_empty in H.
      discriminate.
  - revert p. induction reads as [|rd reads IH]; intros p Hok Hmax.
    + exact Hok.
    + destruct rd as [addr data sock werr|e]; [|exact Hok].
      cbn [Serve].
      pose proof (sendAsClient_proxy p addr data sock werr) as Hp.
      destruct (sendAsClient p addr data sock werr) as [p1 evs]. simpl in Hp.
      cbn [List.length] in Hmax.
      destruct (getClient_registry_ok p addr sock Hok) as [Hok1 Hid]; [lia|].
      rewrite <- Hp in Hok1, Hid.
      specialize (IH p1 Hok1).
      destruct (Serve p1 reads) as [[p2 evs2] r]. simpl in *.
      apply IH. lia.
Qed.

(** X19.  The first datagram of a client that has no port yet: when the
    socket is made, the worker of the new port is started, the datagram is
    recorded with the id of the port as source and 0 as destination, and it
    is written on the new socket to the real server byte for byte.  When
    the socket is refused, nothing is recorded or written and the registry
    is as before. *)
Theorem sendAsClient_first_datagram p addr data werr :
  clients p !! addr = None ->
  (forall l, exists p',
     sendAsClient p addr data (Ok l) werr
     = (p', [StartWorker ((clientID p + 1) mod 2 ^ 32);
             Shared (RecordPacket ((clientID p + 1) mod 2 ^ 32) 0 data);
             PortWrite (Some l) (realSrv p) data]) /\
     is_Some (clients p' !! addr)) /\
  (forall e, exists p',
     sendAsClient p addr data (Err e) werr = (p', []) /\
     clients p' = clients p).
Proof.
  intros Hl. split.
  - intros l. unfold sendAsClient.
    rewrite (getClient_new p addr l Hl). cbv zeta. simpl.
    eexists. split; [reflexivity|]. simpl.
    rewrite lookup_insert_eq. eauto.
  - intros e. unfold sendAsClient.
    rewrite (getClient_refused p addr e Hl).
    eexists. split; reflexivity.
Qed.

(** X20.  A datagram of a client that has a port: no port is made, the
    datagram is recorded as it came, and what is written to the real server
    on the socket of the port is the datagram scrambled with the low byte of
    the key of the port, which is the datagram itself while the key is 0. *)
Theorem sendAsClient_scrambles_with_key p addr c data sock werr :
  clients p !! addr = Some c ->
  sendAsClient p addr data sock werr
  = (p, [Shared (RecordPacket (id c) 0 data);
         PortWrite (lis c) (realSrv p) (xorData (xor c mod 256) data)]) /\
  (xor c mod 256 = 0 -> xorData (xor c mod 256) data = data).
Proof.
  intros Hl.
  assert (H0 : xorData 0 data = data).
  { unfold xorData. induction data as [|b d IH]; [reflexivity|].
    rewrite fmap_cons, IH, Z.lxor_0_r. reflexivity. }
  split; [|intros ->; exact H0].
  unfold sendAsClient. rewrite (getClient_hit p addr c sock Hl).
  unfold SendToServer. simpl.
  destruct (xor c mod 256 =? 0) eqn:E; simpl; [|reflexivity].
  apply Z.eqb_eq in E. rewrite E, H0. reflexivity.
Qed.

(** X21.  A read error on the shared socket ends [Serve] with that error:
    the reads after it are never handled, and the proxy and the events are
    those of the reads before it. *)
Theorem Serve_stops_at_read_error p reads e more :
  Serve p (reads ++ ClientReadError e :: more)
  = ((Serve p reads).1.1, (Serve p reads).1.2,
     match (Serve p reads).2 with
     | Some e0 => Some e0
     | None => Some e
     end).
Proof.
  revert p. induction reads as [|rd reads IH]; intros p; [reflexivity|].
  destruct rd as [addr data sock werr|e0]; [|reflexivity].
  cbn [app Serve].
  destruct (sendAsClient p addr data sock werr) as [p1 evs].
  rewrite IH. destruct (Serve p1 reads) as [[p2 evs2] r]. reflexivity.
Qed.


Section Worker.

Variables MSG_SERVER_INFO MSG_SERVER_ACCEPT MSG_ACCEPTED : Z.

Context {InfoRest AcceptRest MsgAccept : Type}.
Context `{!Message (MsgServerInfo InfoRest)}.
Context `{!Message (MsgServerAccept AcceptRest)}.
Context `{!Message MsgAccept}.

Variable Append : forall T, Message T -> list Z -> T -> result (list Z).

(** X23.  The handshake and what follows it.  When the worker of a
    registered port that has no key yet reads a server-accept datagram of
    the real server whose payload decodes with key [K] and encodes again,
    the client is sent the datagram with the key zeroed, and from then on
    every datagram of that client is written to the real server scrambled
    with the low byte of [K], while its capture record has the bytes as they
    came. *)
Theorem handshake_then_scramble p cli c payload m n enc K :
  clients p !! cli = Some c ->
  xor c mod 256 = 0 ->
  Decode payload = Ok (m, n) ->
  XorKey m = K ->
  0 <= EncodeSize (set_XorKey m 0) ->
  Encode (set_XorKey m 0)
    (replicate (Z.to_nat (EncodeSize (set_XorKey m 0))) 0) = Ok enc ->
  exists p',
    serve_registered MSG_SERVER_INFO MSG_SERVER_ACCEPT MSG_ACCEPTED Append
      p cli (realSrv p) (128 :: 0 :: MSG_SERVER_ACCEPT :: payload)
    = Done (p', [RecordPacket 0 (id c) (128 :: 0 :: MSG_SERVER_ACCEPT :: enc);
                 WriteTo (realCli c) (128 :: 0 :: MSG_SERVER_ACCEPT :: enc)]) /\
    forall data sock werr,
      sendAsClient p' cli data sock werr
      = (p', [Shared (RecordPacket (id c) 0 data);
              PortWrite (lis c) (realSrv p) (xorData (K mod 256) data)]).
Proof.
  intros Hl Hx Hd HK Hsz He. subst K.
  unfold serve_registered. rewrite Hl. unfold serve_datagram.
  rewrite bool_decide_eq_true_2 by reflexivity. simpl negb. cbv iota.
  rewrite Hx. simpl negb. cbv iota.
  rewrite (interceptServer_accept MSG_SERVER_INFO MSG_SERVER_ACCEPT
             MSG_ACCEPTED Append c payload), Hd.
  replace (EncodeSize _ <? 0) with false by (symmetry; apply Z.ltb_ge; lia).
  rewrite He. unbind. rewrite !len_cons.
  replace (1 + (1 + (1 + len enc)) =? 0) with false
    by (symmetry; apply Z.eqb_neq; pose proof (len_nonneg enc); lia).
  eexists. split; [reflexivity|].
  intros data sock werr. unfold sendAsClient.
  rewrite (getClient_hit _ cli (set_xor c (XorKey m)) sock)
    by (simpl; apply lookup_insert_eq).
  unfold SendToServer. simpl.
  destruct (XorKey m mod 256 =? 0) eqn:E; simpl; [|reflexivity].
  apply Z.eqb_eq in E. rewrite E.
  replace (xorData 0 data) with data; [reflexivity|].
  unfold xorData. induction data as [|b d IH]; [reflexivity|].
  rewrite fmap_cons, <- IH, Z.lxor_0_r. reflexivity.
Qed.

End Worker.

End RelayMore.

(** *** More concrete records and datagrams *)

Module MoreScenarios.

Import Decoder DecoderFacts DecoderMore Relay RelayFacts RelayMore.

(** The sample decoder, when it succeeds on the opcode of known length,
    takes that length. *)
Lemma sample_decoder_takes_table_length st data op m n :
  hd_error data = Some op ->
  DecodeNext Sample.registry st data = (m, n, None) ->
  0 < n -> isUnknown Sample.registry m = false ->
  0 <= Op_Len Sample.registry op ->
  n = Op_Len Sample.registry op + 1.
Proof.
  destruct data as [|op' payload]; [discriminate|]. intros [= ->].
  simpl. unfold Sample.DecodeNext, Sample.Op_Len.
  destruct (op =? Sample.MSG_SERVER_ACCEPT); [|intros; lia].
  destruct payload as [|b0 [|b1 [|b2 [|b3 [|k payload]]]]]; simpl;
    try discriminate.
  intros [= _ <-]. lia.
Qed.

Lemma Decode_messages_cover_payload_witness :
  exists o chunks,
    Sample.run "8000140102030437a80141" = Done (o, Sample.state0) /\
    concat chunks = [20; 1; 2; 3; 4; 55; 168; 1; 65] /\
    Forall (fun ch => ch <> []) chunks /\
    (m_Data <$> Msgs o) = (Hex.EncodeToString <$> chunks) /\
    (m_Len <$> Msgs o) = (len <$> chunks) /\
    (m_Op <$> Msgs o)
    = ((fun ch => Op_String Sample.registry (hd 0 ch)) <$> chunks).
Proof.
  eexists.
  destruct (Decode_messages_cover_payload Sample.registry
              (Sample.record "8000140102030437a80141") Sample.state0
              128 0 [20; 1; 2; 3; 4; 55; 168; 1; 65] _ Sample.state0
              eq_refl eq_refl eq_refl) as [chunks H].
  exists chunks. split; [reflexivity | exact H].
Defined.

Lemma Decode_keeps_identity_and_length_witness :
  exists o,
    Sample.run "8005a8" = Done (o, Sample.state0) /\
    SrcID o = 0 /\ DstID o = 1 /\ Src o = "srv" /\ Dst o = "cli" /\
    2 * Len o = 6.
Proof.
  eexists. split; [reflexivity|].
  apply (Decode_keeps_identity_and_length Sample.registry
           (Sample.record "8005a8") Sample.state0 _ Sample.state0 eq_refl).
Defined.

Lemma Decode_without_header_witness :
  exists o,
    Sample.run "80zz" = Done (o, Sample.state0) /\
    Hdr o = EmptyString /\ SID o = 0 /\ Syn o = None /\ Ack o = None /\
    Op o = None /\ Ops o = [] /\ Msgs o = [] /\ Data o = "80zz".
Proof.
  apply (Decode_without_header Sample.registry (Sample.record "80zz")
           Sample.state0).
  right. left. exists "z"%char. split; [simpl; auto | reflexivity].
Defined.

Lemma Decode_fixed_length_messages_witness :
  exists o,
    Sample.run "80001401020304371409090909aa" = Done (o, Sample.state0) /\
    Data o = EmptyString /\
    Ops o = ["MSG_SERVER_ACCEPT"; "MSG_SERVER_ACCEPT"] /\
    (m_Data <$> Msgs o) = ["140102030437"; "1409090909aa"] /\
    (m_Len <$> Msgs o) = [6; 6].
Proof.
  apply (Decode_fixed_length_messages Sample.registry
           (Sample.record "80001401020304371409090909aa") Sample.state0
           128 0 [[20; 1; 2; 3; 4; 55]; [20; 9; 9; 9; 9; 170]]).
  - reflexivity.
  - repeat constructor; eexists _, _; split; reflexivity.
  - apply sample_decoder_takes_table_length.
  - reflexivity.
Defined.

Lemma xorData_bytes_witness :
  List.length (xorData 55 [0; 1; 255]) = 3%nat /\
  Forall (fun b => 0 <= b < 256) (xorData 55 [0; 1; 255]) /\
  xorData 0 [0; 1; 255] = [0; 1; 255].
Proof.
  apply (xorData_bytes 55 [0; 1; 255]).
  - lia.
  - repeat constructor; lia.
Defined.

Lemma interceptServer_changes_only_key_witness :
  id (set_xor Sample.port 55) = 1 /\
  realCli (set_xor Sample.port 55) = (167772161, 40000) /\
  lis (set_xor Sample.port 55) = Some 50000 /\
  (xor (set_xor Sample.port 55) <> xor Sample.port ->
   exists op payload,
     [128; 0; 20; 1; 2; 3; 4; 55] = 128 :: 0 :: op :: payload /\
     (op = Sample.MSG_SERVER_ACCEPT \/ op = Sample.MSG_ACCEPTED)).
Proof.
  apply (@interceptServer_changes_only_key
           Sample.MSG_SERVER_INFO Sample.MSG_SERVER_ACCEPT Sample.MSG_ACCEPTED
           unit (list Z) Z
           Sample.info_codec Sample.accept_codec Sample.accepted_codec
           Sample.Append Sample.port [128; 0; 20; 1; 2; 3; 4; 55]
           [128; 0; 20; 1; 2; 3; 4; 0] (set_xor Sample.port 55)).
  reflexivity.
Defined.

Lemma interceptServer_leaves_other_traffic_witness :
  Sample.interceptServer Sample.port [170; 1; 2] = Done ([170; 1; 2], Sample.port).
Proof.
  apply (interceptServer_leaves_other_traffic
           Sample.MSG_SERVER_INFO Sample.MSG_SERVER_ACCEPT Sample.MSG_ACCEPTED
           Sample.Append Sample.port [170; 1; 2]).
  split; intros (H & _); discriminate.
Defined.

Lemma interceptServer_never_panics_witness :
  exists out c',
    Sample.interceptServer Sample.port [128; 0; 31; 200] = Done (out, c').
Proof.
  apply (interceptServer_never_panics
           Sample.MSG_SERVER_INFO Sample.MSG_SERVER_ACCEPT Sample.MSG_ACCEPTED
           Sample.Append Sample.port [128; 0; 31; 200]).
  - intros m. simpl. lia.
  - intros m. simpl. lia.
  - intros payload m n. destruct payload as [|b payload]; simpl; [discriminate|].
    intros [= _ <-]. rewrite len_cons. pose proof (len_nonneg payload). lia.
Defined.

Lemma interceptServer_renames_server_witness :
  Sample.interceptServer Sample.port [0; 0; 13; 65; 66]
  = Done ([0; 0; 13; 80; 114; 111; 120; 121; 58; 32; 65; 66], Sample.port) /\
  info_rest (set_ServerName {| ServerName := "AB"; info_rest := tt |}
               ("Proxy: " +:+ "AB")) = tt.
Proof.
  apply (interceptServer_renames_server
           Sample.MSG_SERVER_INFO Sample.MSG_SERVER_ACCEPT Sample.MSG_ACCEPTED
           Sample.Append Sample.port [65; 66]
           {| ServerName := "AB"; info_rest := tt |} 2).
  - reflexivity.
  - simpl. lia.
  - reflexivity.
Defined.


Lemma serve_events_for_own_client_witness :
  exists c' evs,
    Sample.serve Sample.proxy Sample.port
      [Datagram (2130706433, 18590) [128; 0; 20; 1; 2; 3; 4; 55];
       Datagram (2130706433, 18590) [55; 54; 53]]
    = Done (c', evs) /\
    id c' = 1 /\ realCli c' = (167772161, 40000) /\ lis c' = Some 50000 /\
    exists outs,
      Forall (fun d => d <> []) outs /\
      evs = concat ((fun d => [RecordPacket 0 1 d;
                               WriteTo (167772161, 40000) d]) <$> outs).
Proof.
  eexists _, _. split; [reflexivity|].
  apply (@serve_events_for_own_client
           Sample.MSG_SERVER_INFO Sample.MSG_SERVER_ACCEPT Sample.MSG_ACCEPTED
           unit (list Z) Z
           Sample.info_codec Sample.accept_codec Sample.accepted_codec
           Sample.Append Sample.proxy Sample.port
           [Datagram (2130706433, 18590) [128; 0; 20; 1; 2; 3; 4; 55];
            Datagram (2130706433, 18590) [55; 54; 53]]).
  reflexivity.
Defined.

Lemma serve_decrypts_before_forwarding_witness :
  Sample.serve_datagram Sample.proxy (set_xor Sample.port 55)
    (2130706433, 18590) (xorData 55 [0; 1; 2])
  = Done (set_xor Sample.port 55,
          [RecordPacket 0 1 [0; 1; 2]; WriteTo (167772161, 40000) [0; 1; 2]]).
Proof.
  apply (serve_decrypts_before_forwarding
           Sample.MSG_SERVER_INFO Sample.MSG_SERVER_ACCEPT Sample.MSG_ACCEPTED
           Sample.Append Sample.proxy (set_xor Sample.port 55) 55 [0; 1; 2]).
  - reflexivity.
  - discriminate.
  - discriminate.
  - split; intros (H & H' & H''); [|discriminate]. destruct H''; discriminate.
Defined.

Lemma getClient_again_same_port_witness :
  exists p' c,
    getClient Sample.proxy (167772161, 40000) (Ok 50000) = (p', Ok c, true) /\
    id c = (clientID Sample.proxy + 1) mod 2 ^ 32 /\
    realCli c = (167772161, 40000) /\
    xor c = 0 /\ lis c = Some 50000 /\
    clients p' !! (167772161, 40000) = Some c /\
    forall sock, getClient p' (167772161, 40000) sock = (p', Ok c, false).
Proof.
  apply (getClient_again_same_port Sample.proxy (167772161, 40000) 50000).
  reflexivity.
Defined.

Lemma getClient_other_addresses_witness :
  clients (getClient Sample.proxy (167772161, 40000) (Ok 50000)).1.1
    !! (167772162, 40001)
  = clients Sample.proxy !! (167772162, 40001) /\
  realSrv (getClient Sample.proxy (167772161, 40000) (Ok 50000)).1.1
  = realSrv Sample.proxy.
Proof.
  apply (getClient_other_addresses Sample.proxy (167772161, 40000)
           (Ok 50000) (167772162, 40001)).
  intros [= ? ?].
Defined.

Lemma Serve_keeps_registry_witness :
  registry_ok
    (Serve Sample.proxy
       [ClientDatagram (167772161, 40000) [170; 1; 2] (Ok 50000) None;
        ClientDatagram (167772162, 40001) [170; 3] (Err "no ports") None;
        ClientDatagram (167772161, 40000) [170; 4] (Ok 50001) None]).1.1.
Proof.
  apply (proj2 (Serve_keeps_registry (2130706433, 18590) Sample.proxy _)).
  - apply (proj1 (Serve_keeps_registry (2130706433, 18590) Sample.proxy [])).
  - simpl. lia.
Defined.

Lemma sendAsClient_first_datagram_witness :
  exists p',
    sendAsClient Sample.proxy (167772161, 40000) [170; 1; 2] (Ok 50000) None
    = (p', [StartWorker ((clientID Sample.proxy + 1) mod 2 ^ 32);
            Shared (RecordPacket ((clientID Sample.proxy + 1) mod 2 ^ 32) 0
                      [170; 1; 2]);
            PortWrite (Some 50000) (realSrv Sample.proxy) [170; 1; 2]]) /\
    is_Some (clients p' !! (167772161, 40000)).
Proof.
  apply (proj1 (sendAsClient_first_datagram Sample.proxy (167772161, 40000)
                  [170; 1; 2] None eq_refl)).
Defined.

Lemma sendAsClient_scrambles_with_key_witness :
  let p := (getClient Sample.proxy (167772161, 40000) (Ok 50000)).1.1 in
  let p := set_clients p (<[(167772161, 40000) := set_xor Sample.port 55]>
                            (clients p)) in
  sendAsClient p (167772161, 40000) [0; 1; 2] (Err "unused") None
  = (p, [Shared (RecordPacket 1 0 [0; 1; 2]);
         PortWrite (Some 50000) (realSrv p) (xorData (55 mod 256) [0; 1; 2])]) /\
  (55 mod 256 = 0 -> xorData (55 mod 256) [0; 1; 2] = [0; 1; 2]).
Proof.
  intros p0 p.
  apply (sendAsClient_scrambles_with_key p (167772161, 40000)
           (set_xor Sample.port 55) [0; 1; 2] (Err "unused") None).
  apply lookup_insert_eq.
Defined.

Lemma handshake_then_scramble_witness :
  exists p',
    Sample.serve_registered Sample.proxy1 (167772161, 40000)
      (realSrv Sample.proxy1) [128; 0; 20; 1; 2; 3; 4; 55]
    = Done (p', [RecordPacket 0 1 [128; 0; 20; 1; 2; 3; 4; 0];
                 WriteTo (167772161, 40000) [128; 0; 20; 1; 2; 3; 4; 0]]) /\
    forall data sock werr,
      sendAsClient p' (167772161, 40000) data sock werr
      = (p', [Shared (RecordPacket 1 0 data);
              PortWrite (Some 50000) (realSrv Sample.proxy1)
                (xorData (55 mod 256) data)]).
Proof.
  apply (handshake_then_scramble
           Sample.MSG_SERVER_INFO Sample.MSG_SERVER_ACCEPT Sample.MSG_ACCEPTED
           Sample.Append Sample.proxy1 (167772161, 40000) Sample.port
           [1; 2; 3; 4; 55] {| XorKey := 55; accept_rest := [1; 2; 3; 4] |} 5
           [1; 2; 3; 4; 0] 55).
  - apply lookup_insert_eq.
  - reflexivity.
  - reflexivity.
  - reflexivity.
  - simpl. lia.
  - reflexivity.
Defined.

Lemma Decode_op_or_ops_witness :
  exists o,
    Sample.run "8005a8" = Done (o, Sample.state0) /\
    Sample.state0 = {| IsClient := negb (0 =? 0) |} /\
    ((Op o = None /\ Ops o <> [] /\ Msgs o <> []) \/
     (exists s b, Op o = Some s /\ [168] = [b] /\ Ops o = [] /\ Msgs o = [])).
Proof.
  eexists. split; [reflexivity|].
  apply (Decode_op_or_ops Sample.registry (Sample.record "8005a8")
           Sample.state0 128 5 [168] _ Sample.state0 eq_refl eq_refl).
Defined.

End MoreScenarios.
